(** * GRAVIS RAG benchmark analysis: a shallow embedding of
      [gravis-app/scripts/benchmark_analysis.py]

    The script loads benchmark CSV files with pandas, concatenates them and
    renders a Markdown report.  This development embeds

    - the numeric cells as IEEE binary64 values (Rocq's primitive floats,
      which is what a pandas [float64] column holds), with NaN, the
      infinities and signed zeros; the arithmetic and the comparisons of the
      script are the binary64 ones;
    - a data frame as a list of labelled rows, with the pandas operations the
      script calls ([unique], boolean-mask selection, [idxmax], [idxmin],
      [loc], [iloc[0]], [empty], [concat]);
    - Python's format specifications used by the f-strings
      ([.0f], [.1f], [.2f], [.3f], [+.1f], [,], [>n]);
    - the console and the file system as an explicit world that
      [analyze_benchmarks], [generate_report] and [main] thread through,
      with exceptions as an error result.

    What comes from outside the script is an input of the embedding: the
    paths [glob.glob] finds and what [pd.read_csv] makes of each path.  The
    frames have the nine columns of the benchmark CSV with the types pandas
    infers for them: [size] a string, [chunks_count] and [ef_search]
    integers, the six metrics binary64 (a cell left empty in the file is a
    NaN).  A column that is all integers prints and compares as the same
    numbers.  Every [size] cell is thus a string: a frame with an empty
    [size] cell, which pandas reads as a NaN and on which the
    [', '.join(unique_sizes)] of [generate_report] raises a [TypeError], is
    not among the frames of this development, and no statement below says
    what the script does on one.  [str.upper] and the field widths are those
    of ASCII text.  Interrupts and failures of the write to the report file
    are not modelled.

    Of [gravis-app/src-tauri/create_macos_icon.py] the development embeds
    the geometry of [create_icon_with_padding] (module [Icon]): the binary64
    division the script performs, and the sides PIL refuses ([Image.new] a
    negative side, [resize] a side below one pixel); the pixels themselves
    belong to PIL. *)

From Stdlib Require Import ZArith Lia Bool List.
From Stdlib Require Import Floats Uint63.
From stdpp Require Import base option list strings gmap.

Local Open Scope Z_scope.
Set Warnings "-inexact-float".

(** ** IEEE binary64 comparisons

    The kernel's float comparisons are specified by [SFcompare] on
    [spec_float]; the order facts the selections need are derived from it
    (module [F64Facts]). *)

Module F64.

Definition cmp (x y : float) : option comparison :=
  SFcompare (Prim2SF x) (Prim2SF y).

Definition is_nan (x : float) : bool := PrimFloat.is_nan x.

(** ordering of the non-NaN specification values, as a key in [Z * (Z * Z)]
    compared lexicographically *)
Definition key (f : spec_float) : Z * (Z * Z) :=
  match f with
  | S754_nan => (0, (0, 0))
  | S754_infinity true => (-2, (0, 0))
  | S754_infinity false => (2, (0, 0))
  | S754_zero _ => (0, (0, 0))
  | S754_finite true m e => (-1, (- e, - Z.pos m))
  | S754_finite false m e => (1, (e, Z.pos m))
  end.

Definition lex_compare (a b : Z * (Z * Z)) : comparison :=
  match Z.compare (fst a) (fst b) with
  | Eq => match Z.compare (fst (snd a)) (fst (snd b)) with
          | Eq => Z.compare (snd (snd a)) (snd (snd b))
          | c => c
          end
  | c => c
  end.

Definition lex_le a b : Prop := lex_compare a b <> Gt.
Definition lex_lt a b : Prop := lex_compare a b = Lt.

Definition fkey (x : float) : Z * (Z * Z) := key (Prim2SF x).

End F64.

(** ** Python strings and format specifications *)

Module Py.

Definition nl : string := String (Ascii.ascii_of_nat 10) "".

(** [sep.join(l)] *)
Fixpoint join (sep : string) (l : list string) : string :=
  match l with
  | [] => ""
  | [s] => s
  | s :: l' => s +:+ sep +:+ join sep l'
  end.

(** [s * n] *)
Fixpoint repeat_str (s : string) (n : nat) : string :=
  match n with
  | O => ""
  | S n' => s +:+ repeat_str s n'
  end.

(** [str.upper], on the ASCII letters (other bytes are kept) *)
Definition upper_ascii (c : Ascii.ascii) : Ascii.ascii :=
  let n := Ascii.nat_of_ascii c in
  if (97 <=? n)%nat && (n <=? 122)%nat then Ascii.ascii_of_nat (n - 32) else c.

Fixpoint upper (s : string) : string :=
  match s with
  | EmptyString => EmptyString
  | String c s' => String (upper_ascii c) (upper s')
  end.

(** the format specification [>w]: right-aligned in a field of [w] *)
Definition rjust (w : nat) (s : string) : string :=
  repeat_str " " (w - String.length s) +:+ s.

Definition digit (n : N) : Ascii.ascii :=
  Ascii.ascii_of_N (48 + n).

(** decimal digits of a natural number, most significant first; [fuel]
    bounds the number of digits *)
Fixpoint digits_fuel (fuel : nat) (n : N) (acc : string) : string :=
  match fuel with
  | O => acc
  | S fuel' =>
      let acc' := String (digit (n mod 10)) acc in
      if (n / 10 =? 0)%N then acc' else digits_fuel fuel' (n / 10) acc'
  end.

Definition str_N (n : N) : string :=
  digits_fuel (S (N.to_nat (N.log2 n))) n "".

(** [str(n)] of an integer *)
Definition str_Z (z : Z) : string :=
  match z with
  | Zneg p => "-" +:+ str_N (Npos p)
  | _ => str_N (Z.to_N z)
  end.

Definition str_nat (n : nat) : string := str_N (N.of_nat n).

(** the format specification [,] of an integer: groups of three digits *)
Fixpoint group3 (fuel : nat) (s : string) : string :=
  match fuel with
  | O => s
  | S fuel' =>
      let n := String.length s in
      if (n <=? 3)%nat then s
      else group3 fuel' (String.substring 0 (n - 3) s) +:+ "," +:+ String.substring (n - 3) 3 s
  end.

Definition fmt_comma (z : Z) : string :=
  match z with
  | Zneg p => "-" +:+ group3 (String.length (str_N (Npos p))) (str_N (Npos p))
  | _ => group3 (String.length (str_N (Z.to_N z))) (str_N (Z.to_N z))
  end.

(** nearest integer to [num / den], ties to even ([den] positive) *)
Definition round_half_even (num den : N) : N :=
  let q := (num / den)%N in
  let r := (num mod den)%N in
  if (2 * r <? den)%N then q
  else if (den <? 2 * r)%N then (q + 1)%N
  else if N.even q then q else (q + 1)%N.

(** [m * 2^e * 10^d], rounded to the nearest integer *)
Definition scaled (d : nat) (m : positive) (e : Z) : N :=
  let num := (Npos m * 10 ^ N.of_nat d)%N in
  match e with
  | Z0 => num
  | Zpos p => (num * 2 ^ Npos p)%N
  | Zneg p => round_half_even num (2 ^ Npos p)
  end.

(** the digits of [n / 10^d] with [d] places after the point *)
Definition fixed_point (d : nat) (n : N) : string :=
  let s := str_N n in
  let s := repeat_str "0" (S d - String.length s) +:+ s in
  let k := (String.length s - d)%nat in
  match d with
  | O => s
  | _ => String.substring 0 k s +:+ "." +:+ String.substring k d s
  end.

(** the format specifications [.df] ([plus = false]) and [+.df]
    ([plus = true]) of a float: the exact binary value rounded half-even to
    [d] decimals, as CPython's correctly rounded conversion does *)
Definition fmt_f (plus : bool) (d : nat) (x : float) : string :=
  let sign (s : bool) : string :=
    if s then "-" else if plus then "+" else "" in
  match Prim2SF x with
  | S754_nan => sign false +:+ "nan"
  | S754_infinity s => sign s +:+ "inf"
  | S754_zero s => sign s +:+ fixed_point d 0
  | S754_finite s m e => sign s +:+ fixed_point d (scaled d m e)
  end.

End Py.

(** ** Exceptions and the world the script acts on *)

(** a raised Python exception, with [str(e)] *)
Inductive exn := Exception (msg : string).

Definition str_exn (e : exn) : string := let 'Exception msg := e in msg.

Inductive result (A : Type) :=
| Ok (a : A)
| Raise (e : exn).
Arguments Ok {A} a.
Arguments Raise {A} e.

#[global] Instance result_ret : MRet result := fun A a => Ok a.

#[global] Instance result_bind : MBind result := fun A B k r =>
  match r with
  | Ok a => k a
  | Raise e => Raise e
  end.

(** the console (one entry per [print] call, oldest first) and the files *)
Record World := mkWorld {
  stdout : list string;
  files : gmap string string }.

(** a computation that prints, writes files and may raise *)
Definition M (A : Type) : Type := World -> World * result A.

#[global] Instance M_ret : MRet M := fun A a w => (w, Ok a).

#[global] Instance M_bind : MBind M := fun A B k m w =>
  match m w with
  | (w', Ok a) => k a w'
  | (w', Raise e) => (w', Raise e)
  end.

Definition lift {A} (r : result A) : M A := fun w => (w, r).

Definition print (s : string) : M unit :=
  fun w => (mkWorld (stdout w ++ [s]) (files w), Ok tt).

(** [with open(path, 'w') as f: f.write(content)] *)
Definition write_file (path content : string) : M unit :=
  fun w => (mkWorld (stdout w) (<[path := content]> (files w)), Ok tt).

Fixpoint for_each {A} (l : list A) (body : A -> M unit) : M unit :=
  match l with
  | [] => mret tt
  | a :: l' => body a ;; for_each l' body
  end.

(** ** Rows and data frames *)

(** a row as [pd.read_csv] yields it: the nine columns of the benchmark CSV *)
Module CsvRow.
Record t := mk {
  size : string;
  chunks_count : Z;
  ef_search : Z;
  indexing_time_min : float;
  throughput_chunks_per_min : float;
  ram_max_gb : float;
  qdrant_disk_gb : float;
  p95_latency_ms : float;
  recall_at_10 : float }.
End CsvRow.

(** a row of the combined frame: the nine columns and [source_file] *)
Module Row.
Record t := mk {
  size : string;
  chunks_count : Z;
  ef_search : Z;
  indexing_time_min : float;
  throughput_chunks_per_min : float;
  ram_max_gb : float;
  qdrant_disk_gb : float;
  p95_latency_ms : float;
  recall_at_10 : float;
  source_file : string }.
End Row.

(** a frame is its rows in order, each with its index label *)
Definition DataFrame : Type := list (nat * Row.t).

(** ** The pandas and numpy operations the script calls *)

Module Pd.

(** [Series.unique()]: the distinct values in order of first appearance *)
Fixpoint unique_acc {A} `{EqDecision A} (seen : list A) (l : list A) : list A :=
  match l with
  | [] => []
  | x :: l' =>
      if decide (x ∈ seen) then unique_acc seen l'
      else x :: unique_acc (x :: seen) l'
  end.

Definition unique {A} `{EqDecision A} (l : list A) : list A := unique_acc [] l.

(** [df[mask]]: the rows where the mask holds, with their labels *)
Definition select (mask : Row.t -> bool) (df : DataFrame) : DataFrame :=
  List.filter (fun lr => mask lr.2) df.

(** [df[df['size'] == size]] *)
Definition by_size (size : string) (df : DataFrame) : DataFrame :=
  select (fun r => String.eqb (Row.size r) size) df.

(** [df[df['ef_search'] == ef]] *)
Definition by_ef_search (ef : Z) (df : DataFrame) : DataFrame :=
  select (fun r => Z.eqb (Row.ef_search r) ef) df.

(** [np.argmax] and [np.argmin] scan for the first occurrence of the
    extremum: position [i] replaces the current best when its value is
    strictly better *)
Fixpoint scan (better : float -> float -> bool)
    (best : nat) (bv : float) (i : nat) (vs : list float) : nat :=
  match vs with
  | [] => best
  | v :: vs' =>
      if better v bv then scan better i v (S i) vs'
      else scan better best bv (S i) vs'
  end.

Definition first_best (better : float -> float -> bool) (vs : list float) : nat :=
  match vs with
  | [] => O
  | v :: vs' => scan better O v 1%nat vs'
  end.

(** [v] is strictly better than the current best [bv]: greater for a
    maximum, lower for a minimum *)
Definition gt (v bv : float) : bool := (bv <? v)%float.
Definition lt (v bv : float) : bool := (v <? bv)%float.

Definition argmax (vs : list float) : nat := first_best gt vs.
Definition argmin (vs : list float) : nat := first_best lt vs.

(** [nanops] replaces the missing values before the scan: by [-inf] for a
    maximum, by [+inf] for a minimum *)
Definition fill (fill_value x : float) : float :=
  if F64.is_nan x then fill_value else x.

(** [Series.idxmax()] and [Series.idxmin()] (with [skipna=True]) on the
    column [col] of [df]: the label at the position the scan finds; an empty
    column and a column of missing values only have no extremum (pandas 3
    raises in [idxmax]; pandas 2 returns a missing label, on which [loc]
    raises) *)
Definition idx_extremum (arg : list float -> nat) (fill_value : float)
    (name : string) (col : Row.t -> float) (df : DataFrame) : result nat :=
  let vals := map (fun lr => col lr.2) df in
  match vals with
  | [] => Raise (Exception ("attempt to get " +:+ name +:+ " of an empty sequence"))
  | _ =>
      if forallb F64.is_nan vals then Raise (Exception "Encountered all NA values")
      else match df !! arg (map (fill fill_value) vals) with
           | Some (label, _) => Ok label
           | None => Raise (Exception "index out of bounds")
           end
  end.

Definition idxmax := idx_extremum argmax neg_infinity "argmax".
Definition idxmin := idx_extremum argmin infinity "argmin".

(** [df.loc[label]]: the row carrying the label (labels are unique in every
    frame the script builds, [pd.concat(..., ignore_index=True)] numbers the
    rows) *)
Definition loc (df : DataFrame) (label : nat) : result Row.t :=
  match List.find (fun lr => Nat.eqb lr.1 label) df with
  | Some (_, r) => Ok r
  | None => Raise (Exception (Py.str_nat label))
  end.

(** [df.iloc[0] if not df.empty else None] *)
Definition iloc0_or_none (df : DataFrame) : option Row.t :=
  match df with
  | [] => None
  | (_, r) :: _ => Some r
  end.

(** rows under a [RangeIndex]: labelled [0 .. n-1] *)
Definition frame (rows : list Row.t) : DataFrame :=
  imap (fun i r => (i, r)) rows.

(** [pd.concat(dfs, ignore_index=True)]: the rows of the frames in order,
    relabelled [0 .. n-1] *)
Definition concat_ignore_index (dfs : list (list Row.t)) : DataFrame :=
  frame (concat dfs).

End Pd.

(** ** [generate_report] *)

(** the acceptance thresholds (the dict [thresholds]) *)
Module Thresholds.
Definition throughput_min : float := 1000.
Definition p95_latency_max : float := 120.
Definition recall_min : float := 0.85.
Definition disk_max : float := 0.6.
(** the dict values as the f-strings print them: the ints [1000] and
    [120], the floats [0.85] and [0.6] *)
Definition throughput_min_str : string := "1000".
Definition p95_latency_max_str : string := "120".
Definition recall_min_str : string := "0.85".
Definition disk_max_str : string := "0.6".
End Thresholds.

(** [a >= b] on floats *)
Definition geb (a b : float) : bool := (b <=? a)%float.

(** the four booleans of the go/no-go analysis of [best_row] *)
Record Evaluation := mkEvaluation {
  throughput_ok : bool;
  latency_ok : bool;
  recall_ok : bool;
  disk_ok : bool }.

Definition evaluate (best_row : Row.t) : Evaluation :=
  {| throughput_ok := geb (Row.throughput_chunks_per_min best_row) Thresholds.throughput_min;
     latency_ok := (Row.p95_latency_ms best_row <=? Thresholds.p95_latency_max)%float;
     recall_ok := geb (Row.recall_at_10 best_row) Thresholds.recall_min;
     disk_ok := (Row.qdrant_disk_gb best_row <=? Thresholds.disk_max)%float |}.

(** [all([throughput_ok, latency_ok, recall_ok, disk_ok])] *)
Definition all_ok (e : Evaluation) : bool :=
  forallb id [throughput_ok e; latency_ok e; recall_ok e; disk_ok e].

Definition GO : string := "✅ GO".
Definition NO_GO : string := "❌ NO-GO".

Definition status (e : Evaluation) : string :=
  if all_ok e then GO else NO_GO.

Definition glyph (ok : bool) : string := if ok then "✅" else "❌".

(** [size_df.loc[size_df[col].idxmax()]] and its [idxmin] twin *)
Definition row_at_idxmax (col : Row.t -> float) (size_df : DataFrame) : result Row.t :=
  label ← Pd.idxmax col size_df; Pd.loc size_df label.

Definition row_at_idxmin (col : Row.t -> float) (size_df : DataFrame) : result Row.t :=
  label ← Pd.idxmin col size_df; Pd.loc size_df label.

(** the row the go/no-go analysis is run on: [best_row] of the iteration
    [size == 'full'], where [size_df] is [df[df['size'] == 'full']] *)
Definition representative (df : DataFrame) : result Row.t :=
  row_at_idxmax Row.recall_at_10 (Pd.by_size "full" df).

(** the lines the [if size == 'full'] block appends for [best_row] *)
Definition go_no_go_lines (best_row : Row.t) : list string :=
  let e := evaluate best_row in
  [ "**Status**: " +:+ status e;
    "";
    "| Metric | Value | Threshold | Status |";
    "|--------|-------|-----------|--------|";
    "| Throughput | " +:+ Py.fmt_f false 0 (Row.throughput_chunks_per_min best_row)
      +:+ " chunks/min | ≥" +:+ Thresholds.throughput_min_str
      +:+ " | " +:+ glyph (throughput_ok e) +:+ " |";
    "| P95 Latency | " +:+ Py.fmt_f false 1 (Row.p95_latency_ms best_row)
      +:+ "ms | ≤" +:+ Thresholds.p95_latency_max_str
      +:+ "ms | " +:+ glyph (latency_ok e) +:+ " |";
    "| Recall@10 | " +:+ Py.fmt_f false 3 (Row.recall_at_10 best_row)
      +:+ " | ≥" +:+ Thresholds.recall_min_str
      +:+ " | " +:+ glyph (recall_ok e) +:+ " |";
    "| Disk Usage | " +:+ Py.fmt_f false 2 (Row.qdrant_disk_gb best_row)
      +:+ "GB | ≤" +:+ Thresholds.disk_max_str
      +:+ "GB | " +:+ glyph (disk_ok e) +:+ " |";
    "" ].

(** the go/no-go block of one size: present for the size ['full'] only *)
Definition go_no_go_block (size : string) (size_df : DataFrame) : result (list string) :=
  if String.eqb size "full" then
    best_row ← row_at_idxmax Row.recall_at_10 size_df;
    mret (go_no_go_lines best_row)
  else mret [].

(** the three recommended configurations of one size *)
Record Picks := mkPicks {
  best_latency : Row.t;
  best_recall : Row.t;
  best_throughput : Row.t }.

Definition picks (size_df : DataFrame) : result Picks :=
  bl ← row_at_idxmin Row.p95_latency_ms size_df;
  br ← row_at_idxmax Row.recall_at_10 size_df;
  bt ← row_at_idxmax Row.throughput_chunks_per_min size_df;
  mret (mkPicks bl br bt).

Definition config_line (objective : string) (r : Row.t) : string :=
  "| **" +:+ objective +:+ "** | " +:+ Py.str_Z (Row.ef_search r)
  +:+ " | " +:+ Py.fmt_f false 1 (Row.p95_latency_ms r)
  +:+ "ms | " +:+ Py.fmt_f false 3 (Row.recall_at_10 r)
  +:+ " | " +:+ Py.fmt_f false 0 (Row.throughput_chunks_per_min r) +:+ " |".

Definition config_lines (p : Picks) : list string :=
  [ "| Objective | ef_search | P95 Latency | Recall@10 | Throughput |";
    "|-----------|-----------|-------------|-----------|------------|";
    config_line "Lowest Latency" (best_latency p);
    config_line "Best Recall" (best_recall p);
    config_line "Best Throughput" (best_throughput p);
    "" ].

(** one iteration of [for size in unique_sizes] *)
Definition size_section (df : DataFrame) (size : string) : result (list string) :=
  let size_df := Pd.by_size size df in
  go ← go_no_go_block size size_df;
  p ← picks size_df;
  mret (["### " +:+ Py.upper size +:+ " Benchmark"; ""]
        ++ go
        ++ ["#### Recommended Configurations"; ""]
        ++ config_lines p).

Fixpoint size_sections (df : DataFrame) (sizes : list string) : result (list string) :=
  match sizes with
  | [] => mret []
  | size :: sizes' =>
      sec ← size_section df size;
      rest ← size_sections df sizes';
      mret (sec ++ rest)
  end.

Definition unique_sizes (df : DataFrame) : list string :=
  Pd.unique (map (fun lr => Row.size lr.2) df).

Definition unique_ef_values (df : DataFrame) : list Z :=
  Pd.unique (map (fun lr => Row.ef_search lr.2) df).

Definition summary_lines (df : DataFrame) : list string :=
  [ "# 🎯 GRAVIS RAG Benchmark Analysis Report";
    "";
    "## 📊 Executive Summary";
    "";
    "- **Total tests run**: " +:+ Py.str_nat (length df);
    "- **Benchmark sizes**: " +:+ Py.join ", " (unique_sizes df);
    "- **ef_search values tested**: " +:+ Py.join ", " (map Py.str_Z (unique_ef_values df));
    "";
    "## 🚦 Go/No-Go Analysis";
    "" ].

Definition result_line (row : Row.t) : string :=
  "| " +:+ Row.size row
  +:+ " | " +:+ Py.fmt_comma (Row.chunks_count row)
  +:+ " | " +:+ Py.str_Z (Row.ef_search row)
  +:+ " | " +:+ Py.fmt_f false 1 (Row.indexing_time_min row)
  +:+ " | " +:+ Py.fmt_f false 0 (Row.throughput_chunks_per_min row)
  +:+ " | " +:+ Py.fmt_f false 1 (Row.ram_max_gb row)
  +:+ " | " +:+ Py.fmt_f false 2 (Row.qdrant_disk_gb row)
  +:+ " | " +:+ Py.fmt_f false 1 (Row.p95_latency_ms row)
  +:+ " | " +:+ Py.fmt_f false 3 (Row.recall_at_10 row) +:+ " |".

Definition complete_results_lines (df : DataFrame) : list string :=
  [ "## 📋 Complete Results";
    "";
    "| Size | Chunks | ef_search | Indexing (min) | Throughput | RAM (GB) | Disk (GB) | P95 Latency (ms) | Recall@10 |";
    "|------|--------|-----------|----------------|------------|----------|-----------|------------------|-----------|" ]
  ++ map (fun lr => result_line lr.2) df
  ++ [ ""; "## 🔧 Tuning Recommendations"; "" ].

(** [((v128 - v32) / v32) * 100] in binary64 arithmetic *)
Definition relative_change (v32 v128 : float) : float :=
  ((v128 - v32) / v32 * 100)%float.

(** the first ['full'] row with the given [ef_search], or [None] *)
Definition first_full_with_ef (ef : Z) (df : DataFrame) : option Row.t :=
  Pd.iloc0_or_none (Pd.by_ef_search ef (Pd.by_size "full" df)).

Definition tradeoff_line (ef_32 ef_128 : Row.t) : string :=
  let latency_improvement :=
    relative_change (Row.p95_latency_ms ef_32) (Row.p95_latency_ms ef_128) in
  let recall_improvement :=
    relative_change (Row.recall_at_10 ef_32) (Row.recall_at_10 ef_128) in
  "- **ef_search=32 vs 128**: " +:+ Py.fmt_f true 1 latency_improvement
  +:+ "% latency, " +:+ Py.fmt_f true 1 recall_improvement +:+ "% recall".

(** the lines of the [if 'full' in unique_sizes] block *)
Definition tuning_lines (df : DataFrame) : list string :=
  if bool_decide ("full" ∈ unique_sizes df) then
    match first_full_with_ef 32 df, first_full_with_ef 128 df with
    | Some ef_32, Some ef_128 => [tradeoff_line ef_32 ef_128]
    | _, _ => []
    end
  else [].

Definition advisory_lines : list string :=
  [ "- **For production**: Use ef_search=64 as baseline, tune based on requirements";
    "- **Low latency**: ef_search=32 (trade-off: -2-5% recall)";
    "- **High quality**: ef_search=128 (trade-off: +20-40% latency)";
    "";
    "---";
    "*Report generated by GRAVIS RAG Benchmark Analysis Tool*" ].

(** the list [report] when [generate_report] reaches the save; on frames
    whose [size] cells are all strings, as here, the joins of the summary
    cannot raise, and the only statements that can are the [idxmin] and
    [idxmax] of the size sections *)
Definition report_lines (df : DataFrame) : result (list string) :=
  sections ← size_sections df (unique_sizes df);
  mret (summary_lines df ++ sections ++ complete_results_lines df
        ++ tuning_lines df ++ advisory_lines).

Definition report_content (df : DataFrame) : result string :=
  report ← report_lines df; mret (Py.join Py.nl report).

Definition report_path : string := "benchmark_analysis_report.md".

Definition summary_print (size : string) (best : Row.t) : string :=
  Py.rjust 6 (Py.upper size)
  +:+ ": ef=" +:+ Py.rjust 3 (Py.str_Z (Row.ef_search best))
  +:+ ", latency=" +:+ Py.rjust 5 (Py.fmt_f false 1 (Row.p95_latency_ms best))
  +:+ "ms, recall=" +:+ Py.fmt_f false 3 (Row.recall_at_10 best).

(** the body of the final loop [for size in unique_sizes] *)
Definition print_best (df : DataFrame) (size : string) : M unit :=
  best ← lift (row_at_idxmax Row.recall_at_10 (Pd.by_size size df));
  print (summary_print size best).

Definition generate_report (df : DataFrame) : M unit :=
  content ← lift (report_content df);
  write_file report_path content;;
  print ("📄 Report generated: " +:+ report_path);;
  print (Py.nl +:+ Py.repeat_str "=" 50);;
  print "📊 BENCHMARK ANALYSIS SUMMARY";;
  print (Py.repeat_str "=" 50);;
  for_each (unique_sizes df) (print_best df).

(** ** [analyze_benchmarks] and [main] *)

(** what the script gets from outside: the paths [glob.glob] finds for a
    pattern, and what [pd.read_csv] makes of a path (its rows, or the
    exception it raises) *)
Record Env := mkEnv {
  glob : string -> list string;
  read_csv : string -> result (list CsvRow.t) }.

Definition slash : Ascii.ascii := Ascii.ascii_of_nat 47.

(** [Path(p).name]: what follows the last ['/'] *)
Fixpoint path_name (p : string) : string :=
  match p with
  | EmptyString => EmptyString
  | String c p' =>
      if existsb (Ascii.eqb slash) (String.list_ascii_of_string p') then path_name p'
      else if Ascii.eqb c slash then p' else p
  end.

(** [df['source_file'] = name] *)
Definition with_source_file (name : string) (r : CsvRow.t) : Row.t :=
  Row.mk (CsvRow.size r) (CsvRow.chunks_count r) (CsvRow.ef_search r)
    (CsvRow.indexing_time_min r) (CsvRow.throughput_chunks_per_min r)
    (CsvRow.ram_max_gb r) (CsvRow.qdrant_disk_gb r) (CsvRow.p95_latency_ms r)
    (CsvRow.recall_at_10 r) name.

(** the loop [for csv_file in csv_files]: the list [dfs] it leaves *)
Fixpoint load (env : Env) (csv_files : list string) : M (list (list Row.t)) :=
  match csv_files with
  | [] => mret []
  | csv_file :: rest =>
      match read_csv env csv_file with
      | Ok rows =>
          let df := map (with_source_file (path_name csv_file)) rows in
          print ("✅ Loaded " +:+ csv_file +:+ ": " +:+ Py.str_nat (length df) +:+ " rows");;
          dfs ← load env rest;
          mret (df :: dfs)
      | Raise e =>
          print ("❌ Error loading " +:+ csv_file +:+ ": " +:+ str_exn e);;
          load env rest
      end
  end.

Definition no_files_message (csv_pattern : string) : string :=
  "❌ No CSV files found matching pattern: " +:+ csv_pattern.

Definition no_valid_message : string := "❌ No valid CSV files loaded".

Definition analyze_benchmarks (env : Env) (csv_pattern : string) : M unit :=
  let csv_files := glob env csv_pattern in
  match csv_files with
  | [] => print (no_files_message csv_pattern)
  | _ =>
      print ("📊 Found " +:+ Py.str_nat (length csv_files) +:+ " CSV files to analyze");;
      dfs ← load env csv_files;
      match dfs with
      | [] => print no_valid_message
      | _ => generate_report (Pd.concat_ignore_index dfs)
      end
  end.

(** [main]: the world it leaves and the exit status of the process *)
Definition main (env : Env) (pattern : string) (w : World) : World * Z :=
  match analyze_benchmarks env pattern w with
  | (w', Ok _) => (w', 0)
  | (w', Raise e) =>
      ((print ("❌ Error during analysis: " +:+ str_exn e) w').1, 1)
  end.

(** * Vocabulary of the statements *)

(** ** The first-extremum scan *)

(** [k] is the first position of [vs] holding a best value *)
Definition first_best_at (better : float -> float -> bool)
    (vs : list float) (k : nat) : Prop :=
  exists vk, vs !! k = Some vk /\
    (forall j u, vs !! j = Some u -> better u vk = false) /\
    (forall j u, (j < k)%nat -> vs !! j = Some u -> better vk u = true).

(** ** Frames, masks and labels *)

(** labels grow with the position *)
Definition increasing (df : DataFrame) : Prop :=
  forall k1 k2 a b,
    df !! k1 = Some a -> df !! k2 = Some b -> (k1 < k2)%nat -> (a.1 < b.1)%nat.

(** ** What [idxmax] and [idxmin] select *)

(** the group selected by [mask] holds a number in column [col] *)
Definition has_number (col : Row.t -> float) (mask : Row.t -> bool)
    (rows : list Row.t) : Prop :=
  exists r, r ∈ rows /\ mask r = true /\ F64.is_nan (col r) = false.

(** [pick] is a row of the group selected by [mask]; no row of the group has
    a strictly better value in column [col]; no earlier row of the group has
    an equal value *)
Definition first_extremum (better : float -> float -> bool)
    (col : Row.t -> float) (mask : Row.t -> bool)
    (rows : list Row.t) (pick : Row.t) : Prop :=
  exists i, rows !! i = Some pick /\ mask pick = true /\
    (forall j r, rows !! j = Some r -> mask r = true ->
       better (col r) (col pick) = false) /\
    (forall j r, (j < i)%nat -> rows !! j = Some r -> mask r = true ->
       (col r =? col pick)%float = false).

Definition in_size (size : string) (r : Row.t) : bool :=
  String.eqb (Row.size r) size.

(** the group of [size] holds a number in column [col] *)
Definition group_has_number (col : Row.t -> float) (size : string)
    (rows : list Row.t) : Prop :=
  exists r, r ∈ rows /\ Row.size r = size /\ F64.is_nan (col r) = false.

(** [pick] is a row of the group of [size]; no row of the group has a
    strictly better value in column [col]; every earlier row of the group
    has a different value *)
Definition first_best_in_group (better : float -> float -> bool)
    (col : Row.t -> float) (size : string)
    (rows : list Row.t) (pick : Row.t) : Prop :=
  exists i, rows !! i = Some pick /\ Row.size pick = size /\
    (forall j r, rows !! j = Some r -> Row.size r = size ->
       better (col r) (col pick) = false) /\
    (forall j r, (j < i)%nat -> rows !! j = Some r -> Row.size r = size ->
       (col r =? col pick)%float = false).

(** ** The go/no-go verdict *)

(** the four dimensions of the analysis, the field each reads, its boolean
    and its bound *)
Inductive Dimension := Throughput | Latency | Recall | Disk.

#[global] Instance Dimension_eq_dec : EqDecision Dimension.
Proof. solve_decision. Defined.

Definition value (d : Dimension) (r : Row.t) : float :=
  match d with
  | Throughput => Row.throughput_chunks_per_min r
  | Latency => Row.p95_latency_ms r
  | Recall => Row.recall_at_10 r
  | Disk => Row.qdrant_disk_gb r
  end.


Definition passes (d : Dimension) (e : Evaluation) : bool :=
  match d with
  | Throughput => throughput_ok e
  | Latency => latency_ok e
  | Recall => recall_ok e
  | Disk => disk_ok e
  end.

Definition bound (d : Dimension) : float :=
  match d with
  | Throughput => Thresholds.throughput_min
  | Latency => Thresholds.p95_latency_max
  | Recall => Thresholds.recall_min
  | Disk => Thresholds.disk_max
  end.

(** [v] is on the accepted side of the bound of [d]: at least the minimum,
    at most the maximum *)
Definition meets (d : Dimension) (v : float) : bool :=
  match d with
  | Throughput | Recall => (bound d <=? v)%float
  | Latency | Disk => (v <=? bound d)%float
  end.



(** ** The tuning guidance *)

(** [r] is the first row of size ["full"] with [ef_search = ef], in dataset
    order *)
Definition first_full_ef (ef : Z) (rows : list Row.t) (r : Row.t) : Prop :=
  exists i, rows !! i = Some r /\ Row.size r = "full" /\ Row.ef_search r = ef /\
    forall j r', (j < i)%nat -> rows !! j = Some r' ->
      ~ (Row.size r' = "full" /\ Row.ef_search r' = ef).

(** no row of size ["full"] has [ef_search = ef] *)
Definition no_full_ef (ef : Z) (rows : list Row.t) : Prop :=
  forall r, r ∈ rows -> ~ (Row.size r = "full" /\ Row.ef_search r = ef).

Definition full_ef_mask (ef : Z) (r : Row.t) : bool :=
  String.eqb (Row.size r) "full" && Z.eqb (Row.ef_search r) ef.

(** the bounds the specification's data model states for a record:
    [chunks_count] not negative, [ef_search] positive, the float fields not
    negative, [recall_at_10] in [[0, 1]] (the script has no such check) *)
Definition data_model_bounds (r : Row.t) : bool :=
  (0 <=? Row.chunks_count r) && (0 <? Row.ef_search r)
  && (0 <=? Row.indexing_time_min r)%float
  && (0 <=? Row.throughput_chunks_per_min r)%float
  && (0 <=? Row.ram_max_gb r)%float
  && (0 <=? Row.qdrant_disk_gb r)%float
  && (0 <=? Row.p95_latency_ms r)%float
  && (0 <=? Row.recall_at_10 r)%float
  && (Row.recall_at_10 r <=? 1)%float.

(** the divisor of [relative_change v32 _] is zero *)
Definition zero_divisor (v32 : float) : bool := (v32 =? 0)%float.

(** ** The loader *)

(** the rows a path contributes: all the rows [pd.read_csv] returns, tagged
    with the file name; none when the read raises *)
Definition rows_of (env : Env) (csv_file : string) : list Row.t :=
  match read_csv env csv_file with
  | Ok rows => map (with_source_file (path_name csv_file)) rows
  | Raise _ => []
  end.

Definition readable (env : Env) (csv_file : string) : bool :=
  match read_csv env csv_file with
  | Ok _ => true
  | Raise _ => false
  end.

(** what the loop prints for a path *)
Definition load_message (env : Env) (csv_file : string) : string :=
  match read_csv env csv_file with
  | Ok rows =>
      "✅ Loaded " +:+ csv_file +:+ ": " +:+ Py.str_nat (length rows) +:+ " rows"
  | Raise e => "❌ Error loading " +:+ csv_file +:+ ": " +:+ str_exn e
  end.

(** the frames the loop keeps: one per readable path *)
Definition loaded (env : Env) (csv_files : list string) : list (list Row.t) :=
  map (rows_of env) (List.filter (readable env) csv_files).

Definition printed (w : World) (msgs : list string) : World :=
  mkWorld (stdout w ++ msgs) (files w).

Definition found_message (csv_files : list string) : string :=
  "📊 Found " +:+ Py.str_nat (length csv_files) +:+ " CSV files to analyze".

(** ** [generate_report]: content, file and console *)

(** the console summary of the sizes *)
Definition summary_prints (df : DataFrame) (sizes : list string) : list string :=
  flat_map (fun size =>
    match row_at_idxmax Row.recall_at_10 (Pd.by_size size df) with
    | Ok best => [summary_print size best]
    | Raise _ => []
    end) sizes.

(** everything [generate_report] prints when it returns *)
Definition console_lines (df : DataFrame) : list string :=
  [ "📄 Report generated: " +:+ report_path;
    Py.nl +:+ Py.repeat_str "=" 50;
    "📊 BENCHMARK ANALYSIS SUMMARY";
    Py.repeat_str "=" 50 ]
  ++ summary_prints df (unique_sizes df).

(** the content a run leaves in the report file, if it writes one: a
    function of what [glob] and [pd.read_csv] return *)
Definition pipeline_content (env : Env) (csv_pattern : string) : option string :=
  let csv_files := glob env csv_pattern in
  match csv_files with
  | [] => None
  | _ =>
      if forallb (fun f => negb (readable env f)) csv_files then None
      else match report_content (Pd.frame (flat_map (rows_of env) csv_files)) with
           | Ok content => Some content
           | Raise _ => None
           end
  end.

(** ** Datasets without the size ["full"] *)

(** the group of [size] holds a number in each of the three metric columns *)
Definition group_has_numbers (size : string) (rows : list Row.t) : Prop :=
  group_has_number Row.p95_latency_ms size rows /\
  group_has_number Row.recall_at_10 size rows /\
  group_has_number Row.throughput_chunks_per_min size rows.




(** ** Sample data *)

(** sample rows *)
Definition sample (size : string) (ef : Z) (throughput p95 recall disk : float)
    : Row.t :=
  Row.mk size 100000 ef 12.5 throughput 2.5 disk p95 recall "a.csv".

Definition sample_rows : list Row.t :=
  [ sample "small" 32 5000 10.5 0.8 0.01;
    sample "full" 32 1200 80 0.8 0.5;
    sample "full" 64 1100 90 0.9 0.5;
    sample "full" 128 1000 100 0.9 0.55 ].

(** a CSV row outside the data-model bounds: negative latency, recall above 1 *)
Definition bad_row : CsvRow.t :=
  CsvRow.mk "full" 100000 32 12.5 1200 2.5 0.5 (-3) 1.5.

Definition bad_env : Env :=
  mkEnv (fun _ => ["benchmark_results/bad.csv"]) (fun _ => Ok [bad_row]).


Definition broken_env : Env :=
  mkEnv (fun _ => ["r/a.csv"; "r/b.csv"])
        (fun _ => Raise (Exception "No columns to parse from file")).

Definition small_rows : list Row.t :=
  [ sample "small" 32 5000 10.5 0.8 0.01;
    sample "medium" 64 3000 20 0.85 0.1;
    sample "small" 64 4500 12 0.8 0.01 ].

(** * Vocabulary of the further properties *)

(** ** Runs, verdicts and groups *)

(** the exception a run ends on, if any: the one raised while the report
    content is built from the loaded rows *)
Definition pipeline_error (env : Env) (csv_pattern : string) : option exn :=
  let csv_files := glob env csv_pattern in
  match csv_files with
  | [] => None
  | _ =>
      if forallb (fun f => negb (readable env f)) csv_files then None
      else match report_content (Pd.frame (flat_map (rows_of env) csv_files)) with
           | Ok _ => None
           | Raise e => Some e
           end
  end.

Definition error_message (e : exn) : string :=
  "❌ Error during analysis: " +:+ str_exn e.

(** [v'] is at least as good as [v] for the dimension [d]: not lower for
    throughput and recall, not higher for latency and disk *)
Definition no_worse (d : Dimension) (v v' : float) : bool :=
  match d with
  | Throughput | Recall => (v <=? v')%float
  | Latency | Disk => (v' <=? v)%float
  end.

(** [v] is a finite number *)
Definition finite (v : float) : bool :=
  (neg_infinity <? v)%float && (v <? infinity)%float.

(** the group of [size] holds a finite value in column [col] *)
Definition group_has_finite (col : Row.t -> float) (size : string)
    (rows : list Row.t) : Prop :=
  exists r, r ∈ rows /\ Row.size r = size /\ finite (col r) = true.

(** the number of rows a path contributes *)
Definition row_count (env : Env) (csv_file : string) : nat :=
  match read_csv env csv_file with
  | Ok rows => length rows
  | Raise _ => O
  end.

(** ** Further sample data *)

(** a source whose recall column is empty *)
Definition missing_row : CsvRow.t :=
  CsvRow.mk "full" 100000 32 12.5 1200 2.5 0.5 80 nan.

Definition missing_env : Env :=
  mkEnv (fun _ => ["r/a.csv"]) (fun _ => Ok [missing_row]).

(** rows with missing cells ahead of the rows with values *)
Definition gappy_rows : list Row.t :=
  [ sample "full" 16 nan nan nan 0.5;
    sample "full" 32 1200 80 0.8 0.5;
    sample "full" 64 1100 nan 0.9 0.5 ].

(** ** [create_icon_with_padding] of [create_macos_icon.py]

    The images are PIL's.  The embedding keeps the geometry the function
    computes: the side of the transparent square it creates, the side the
    logo is resized to, and the offset at which the logo is pasted. *)

Module Icon.

(** a Python [int] as a float (exact below [2^53]) *)
Definition float_of_int (z : Z) : float :=
  match z with
  | Z0 => 0%float
  | Zpos _ => of_uint63 (Uint63.of_Z z)
  | Zneg p => (- of_uint63 (Uint63.of_Z (Zpos p)))%float
  end.

(** [int(x)]: truncation toward zero; an infinity and NaN raise *)
Definition int_of_float (x : float) : result Z :=
  match Prim2SF x with
  | S754_zero _ => Ok 0
  | S754_finite s m e =>
      let a := match e with
               | Zneg p => Z.pos m / 2 ^ Z.pos p
               | _ => Z.pos m * 2 ^ e
               end in
      Ok (if s then - a else a)
  | S754_infinity _ => Raise (Exception "cannot convert float infinity to integer")
  | S754_nan => Raise (Exception "cannot convert float NaN to integer")
  end.

(** [a / b] of two ints: the true division, in binary64 *)
Definition true_div (a b : Z) : float := (float_of_int a / float_of_int b)%float.

(** [int(size * (100 - padding_percent) / 100)] *)
Definition logo_size (size padding_percent : Z) : result Z :=
  int_of_float (true_div (size * (100 - padding_percent)) 100).

(** the icon returned: a transparent square of side [side], with the logo
    resized to [logo_side] pasted at ([offset], [offset]) *)
Record t := mk {
  side : Z;
  logo_side : Z;
  offset : Z }.

(** [Image.new('RGBA', (size, size), (0, 0, 0, 0))]: PIL refuses a negative
    side *)
Definition new_image (size : Z) : result Z :=
  if size <? 0 then Raise (Exception "Width and height must be >= 0")
  else Ok size.

(** [logo.resize((logo_size, logo_size), LANCZOS)]: PIL refuses a side below
    one pixel; the result has the side asked for *)
Definition resize (logo_size : Z) : result Z :=
  if logo_size <? 1 then Raise (Exception "height and width must be > 0")
  else Ok logo_size.

Definition create_icon_with_padding (size padding_percent : Z) : result t :=
  icon ← new_image size;
  logo_size ← logo_size size padding_percent;
  logo_resized ← resize logo_size;
  let offset := (size - logo_size) / 2 in
  mret (mk icon logo_resized offset).

(** the tables of [create_macos_compliant_icon]: size, file name, padding *)
Definition sizes : list (Z * string * Z) :=
  [ (32, "32x32.png", 40); (128, "128x128.png", 40);
    (256, "128x128@2x.png", 40); (512, "icon.png", 40) ].

Definition iconset_configs : list (Z * string * Z) :=
  [ (16, "icon_16x16.png", 45); (32, "icon_16x16@2x.png", 45);
    (32, "icon_32x32.png", 40); (64, "icon_32x32@2x.png", 40);
    (128, "icon_128x128.png", 38); (256, "icon_128x128@2x.png", 38);
    (256, "icon_256x256.png", 35); (512, "icon_256x256@2x.png", 35);
    (512, "icon_512x512.png", 32); (1024, "icon_512x512@2x.png", 32) ].

Definition ico_sizes : list Z := [16; 32; 48; 64; 128; 256].

(** [45 if size <= 32 else 40 if size <= 64 else 35] *)
Definition ico_padding (size : Z) : Z :=
  if size <=? 32 then 45 else if size <=? 64 then 40 else 35.

(** every (size, padding) the script passes to [create_icon_with_padding] *)
Definition configurations : list (Z * Z) :=
  map (fun c => (c.1.1, c.2)) (sizes ++ iconset_configs)
  ++ [(1024, 12)]
  ++ map (fun size => (size, ico_padding size)) ico_sizes.

End Icon.

(** ** A bounded check *)

(** [P] holds of [a, a + 1, ..., a + fuel - 1] *)
Fixpoint all_from (fuel : nat) (a : Z) (P : Z -> bool) : bool :=
  match fuel with
  | O => true
  | S fuel' => P a && all_from fuel' (a + 1) P
  end.

(** the binary64 quotient by 100, truncated, is the integer quotient *)
Definition div100_exact (a : Z) : bool :=
  match Icon.int_of_float (Icon.true_div a 100) with
  | Ok q => q =? a / 100
  | Raise _ => false
  end.

(** * Properties *)

(** ** Order facts of binary64 comparisons *)

Module F64Facts.
Import F64.

Lemma SFcompare_key (f g : spec_float) :
  f <> S754_nan -> g <> S754_nan ->
  SFcompare f g = Some (lex_compare (key f) (key g)).
Proof.
  intros Hf Hg.
  destruct f as [sf|sf| |sf mf ef], g as [sg|sg| |sg mg eg]; try congruence;
    try destruct sf; try destruct sg; try reflexivity;
    unfold lex_compare; cbn [SFcompare key fst snd Z.compare];
    change (Pos.compare_cont Eq mf mg) with (Pos.compare mf mg).
  - rewrite Z.compare_opp.
    destruct (Z.compare_spec eg ef) as [->|H|H].
    + assert (H' : (ef ?= ef) = Eq) by apply Z.compare_refl.
      rewrite ?H'. cbn. reflexivity.
    + rewrite (proj2 (Z.compare_gt_iff ef eg)) by lia. reflexivity.
    + rewrite (proj2 (Z.compare_lt_iff ef eg)) by lia. reflexivity.
Qed.

Lemma lex_compare_refl a : lex_compare a a = Eq.
Proof. unfold lex_compare. now rewrite !Z.compare_refl. Qed.

Lemma lex_compare_antisym a b : lex_compare b a = CompOpp (lex_compare a b).
Proof.
  unfold lex_compare.
  rewrite (Z.compare_antisym (fst a) (fst b)).
  rewrite (Z.compare_antisym (fst (snd a)) (fst (snd b))).
  rewrite (Z.compare_antisym (snd (snd a)) (snd (snd b))).
  destruct (fst a ?= fst b); cbn; try reflexivity.
  destruct (fst (snd a) ?= fst (snd b)); cbn; reflexivity.
Qed.

Ltac lex_cases :=
  unfold lex_le, lex_lt, lex_compare in *;
  repeat match goal with
  | H : context [Z.compare ?x ?y] |- _ =>
      destruct (Z.compare_spec x y); try congruence
  | |- context [Z.compare ?x ?y] =>
      destruct (Z.compare_spec x y); try congruence
  end; try lia.

Lemma lex_le_trans a b c : lex_le a b -> lex_le b c -> lex_le a c.
Proof. destruct a as [a1 [a2 a3]], b as [b1 [b2 b3]], c as [c1 [c2 c3]]; cbn. lex_cases. Qed.

Lemma lex_lt_le_trans a b c : lex_lt a b -> lex_le b c -> lex_lt a c.
Proof. destruct a as [a1 [a2 a3]], b as [b1 [b2 b3]], c as [c1 [c2 c3]]; cbn. lex_cases. Qed.

Lemma lex_le_lt_trans a b c : lex_le a b -> lex_lt b c -> lex_lt a c.
Proof. destruct a as [a1 [a2 a3]], b as [b1 [b2 b3]], c as [c1 [c2 c3]]; cbn. lex_cases. Qed.

Lemma is_nan_spec (x : float) : is_nan x = true <-> Prim2SF x = S754_nan.
Proof.
  unfold is_nan, PrimFloat.is_nan. rewrite FloatAxioms.eqb_spec. unfold SFeqb.
  destruct (Prim2SF x) as [s|s| |s m e] eqn:E.
  - cbn. split; discriminate.
  - destruct s; cbn; split; discriminate.
  - cbn. tauto.
  - rewrite SFcompare_key by congruence.
    rewrite lex_compare_refl. cbn. split; discriminate.
Qed.

Lemma not_nan_spec (x : float) : is_nan x = false <-> Prim2SF x <> S754_nan.
Proof.
  rewrite <- is_nan_spec. destruct (is_nan x); split; congruence.
Qed.

Lemma cmp_nan_l x y : is_nan x = true -> cmp x y = None.
Proof. intros H%is_nan_spec. unfold cmp. now rewrite H. Qed.

Lemma cmp_nan_r x y : is_nan y = true -> cmp x y = None.
Proof.
  intros H%is_nan_spec. unfold cmp. rewrite H. now destruct (Prim2SF x).
Qed.

Lemma cmp_key x y :
  is_nan x = false -> is_nan y = false ->
  cmp x y = Some (lex_compare (fkey x) (fkey y)).
Proof.
  intros Hx%not_nan_spec Hy%not_nan_spec. now apply SFcompare_key.
Qed.

Lemma ltb_cmp x y : (x <? y)%float = true <-> cmp x y = Some Lt.
Proof.
  rewrite FloatAxioms.ltb_spec. unfold SFltb, cmp.
  destruct (SFcompare _ _) as [[]|]; split; congruence.
Qed.

Lemma eqb_cmp x y : (x =? y)%float = true <-> cmp x y = Some Eq.
Proof.
  rewrite FloatAxioms.eqb_spec. unfold SFeqb, cmp.
  destruct (SFcompare _ _) as [[]|]; split; congruence.
Qed.

Lemma leb_cmp x y :
  (x <=? y)%float = true <-> cmp x y = Some Lt \/ cmp x y = Some Eq.
Proof.
  rewrite FloatAxioms.leb_spec. unfold SFleb, cmp.
  destruct (SFcompare _ _) as [[]|]; split; intros; try tauto; try congruence;
    destruct H; congruence.
Qed.

Lemma ltb_nan_l x y : is_nan x = true -> (x <? y)%float = false.
Proof.
  intros H. apply not_true_is_false. rewrite ltb_cmp, (cmp_nan_l _ _ H).
  discriminate.
Qed.

Lemma ltb_nan_r x y : is_nan y = true -> (x <? y)%float = false.
Proof.
  intros H. apply not_true_is_false. rewrite ltb_cmp, (cmp_nan_r _ _ H).
  discriminate.
Qed.

Lemma eqb_nan_l x y : is_nan x = true -> (x =? y)%float = false.
Proof.
  intros H. apply not_true_is_false. rewrite eqb_cmp, (cmp_nan_l _ _ H).
  discriminate.
Qed.

Lemma eqb_nan_r x y : is_nan y = true -> (x =? y)%float = false.
Proof.
  intros H. apply not_true_is_false. rewrite eqb_cmp, (cmp_nan_r _ _ H).
  discriminate.
Qed.

Lemma leb_nan_l x y : is_nan x = true -> (x <=? y)%float = false.
Proof.
  intros H. apply not_true_is_false. rewrite leb_cmp, (cmp_nan_l _ _ H).
  intros [?|?]; discriminate.
Qed.

Lemma leb_nan_r x y : is_nan y = true -> (x <=? y)%float = false.
Proof.
  intros H. apply not_true_is_false. rewrite leb_cmp, (cmp_nan_r _ _ H).
  intros [?|?]; discriminate.
Qed.

Lemma ltb_eqb_false x y : (x <? y)%float = true -> (x =? y)%float = false.
Proof.
  rewrite ltb_cmp. intros H. apply not_true_is_false. rewrite eqb_cmp, H.
  discriminate.
Qed.

Lemma ltb_key x y :
  is_nan x = false -> is_nan y = false ->
  (x <? y)%float = true <-> lex_lt (fkey x) (fkey y).
Proof.
  intros Hx Hy. rewrite ltb_cmp, (cmp_key _ _ Hx Hy). unfold lex_lt.
  split; congruence.
Qed.

Lemma ltb_false_key x y :
  is_nan x = false -> is_nan y = false ->
  (x <? y)%float = false <-> lex_le (fkey y) (fkey x).
Proof.
  intros Hx Hy. rewrite <- not_true_iff_false, (ltb_key _ _ Hx Hy).
  unfold lex_lt, lex_le. rewrite (lex_compare_antisym (fkey x) (fkey y)).
  destruct (lex_compare (fkey x) (fkey y)); cbn; split; congruence.
Qed.

Lemma leb_key x y :
  is_nan x = false -> is_nan y = false ->
  (x <=? y)%float = true <-> lex_le (fkey x) (fkey y).
Proof.
  intros Hx Hy. rewrite leb_cmp, (cmp_key _ _ Hx Hy). unfold lex_le.
  destruct (lex_compare _ _); split; intros; try tauto; try congruence;
    destruct H; congruence.
Qed.

(** on numbers, [<=] is the negation of the converse [<] *)
Lemma leb_ltb_false x y :
  is_nan x = false -> is_nan y = false ->
  (x <=? y)%float = true <-> (y <? x)%float = false.
Proof.
  intros Hx Hy. now rewrite (leb_key _ _ Hx Hy), (ltb_false_key _ _ Hy Hx).
Qed.

Lemma ltb_asym x y : (x <? y)%float = true -> (y <? x)%float = false.
Proof.
  intros H.
  destruct (is_nan x) eqn:Hx; [now apply ltb_nan_r|].
  destruct (is_nan y) eqn:Hy; [now apply ltb_nan_l|].
  apply (ltb_key _ _ Hx Hy) in H. apply (ltb_false_key _ _ Hy Hx).
  unfold lex_lt, lex_le in *. congruence.
Qed.

Lemma le_lt_trans x y z :
  is_nan x = false -> is_nan y = false -> is_nan z = false ->
  (y <? x)%float = false -> (y <? z)%float = true -> (x <? z)%float = true.
Proof.
  intros Hx Hy Hz H1 H2.
  apply (ltb_false_key _ _ Hy Hx) in H1. apply (ltb_key _ _ Hy Hz) in H2.
  apply (ltb_key _ _ Hx Hz). eapply lex_le_lt_trans; eauto.
Qed.



(** below or equal, and different, is strictly below *)
Lemma leb_neq_ltb x y :
  (x <=? y)%float = true ->
  ((y =? x)%float = false <-> (x <? y)%float = true).
Proof.
  intros Hle.
  destruct (is_nan x) eqn:Hx; [now rewrite leb_nan_l in Hle|].
  destruct (is_nan y) eqn:Hy; [now rewrite leb_nan_r in Hle|].
  rewrite <- not_true_iff_false, eqb_cmp, ltb_cmp.
  rewrite (cmp_key _ _ Hy Hx), (cmp_key _ _ Hx Hy).
  apply (leb_key _ _ Hx Hy) in Hle. unfold lex_le in Hle.
  rewrite (lex_compare_antisym (fkey x) (fkey y)).
  destruct (lex_compare (fkey x) (fkey y)); cbn; split; congruence.
Qed.

Lemma lt_le_trans x y z :
  is_nan x = false -> is_nan y = false -> is_nan z = false ->
  (x <? y)%float = true -> (z <? y)%float = false -> (x <? z)%float = true.
Proof.
  intros Hx Hy Hz H1 H2.
  apply (ltb_key _ _ Hx Hy) in H1. apply (ltb_false_key _ _ Hz Hy) in H2.
  apply (ltb_key _ _ Hx Hz). eapply lex_lt_le_trans; eauto.
Qed.

End F64Facts.

(** ** The format specifications on samples *)

Example fmt_f_samples :
  Py.fmt_f false 1 80.25%float = "80.2" /\
  Py.fmt_f false 1 80.35%float = "80.3" /\
  Py.fmt_f false 0 1234.5%float = "1234" /\
  Py.fmt_f false 0 0.5%float = "0" /\
  Py.fmt_f false 0 1.5%float = "2" /\
  Py.fmt_f false 3 0.8765%float = "0.876" /\
  Py.fmt_f false 2 0.005%float = "0.01" /\
  Py.fmt_f true 1 (-0.04)%float = "-0.0" /\
  Py.fmt_f true 1 (0 / 0)%float = "+nan" /\
  Py.fmt_f true 1 (1 / 0)%float = "+inf" /\
  Py.fmt_f false 2 1e22%float = "10000000000000000000000.00" /\
  Py.fmt_comma 1234567 = "1,234,567" /\
  Py.fmt_comma (-1000) = "-1,000" /\
  Py.fmt_comma 999 = "999" /\
  Py.str_Z 0 = "0" /\
  Py.rjust 5 "ab" = "   ab" /\
  Py.upper "full_2x" = "FULL_2X".
Proof. vm_compute. repeat split. Qed.

(** ** The first-extremum scan *)

Section Scan.
Variable better : float -> float -> bool.
(** the values the scan runs on: numbers, after the fill *)
Variable D : float -> Prop.
Hypothesis better_asym :
  forall a b, better a b = true -> better b a = false.
Hypothesis better_trans :
  forall a b c, D a -> D b -> D c ->
    better a b = false -> better c b = true -> better c a = true.

Lemma better_irrefl a : better a a = false.
Proof.
  destruct (better a a) eqn:E; [|reflexivity].
  now rewrite (better_asym _ _ E) in E.
Qed.

Lemma scan_spec (vs pre : list float) (best : nat) (bv : float) :
  Forall D (pre ++ vs) ->
  pre !! best = Some bv ->
  (forall j u, pre !! j = Some u -> better u bv = false) ->
  (forall j u, (j < best)%nat -> pre !! j = Some u -> better bv u = true) ->
  first_best_at better (pre ++ vs) (Pd.scan better best bv (length pre) vs).
Proof.
  revert pre best bv.
  induction vs as [|v vs IH]; intros pre best bv HD Hbest Hmax Hfirst.
  - rewrite app_nil_r in *. cbn. exists bv. auto.
  - cbn [Pd.scan].
    assert (Hlen : length (pre ++ [v]) = S (length pre))
      by (rewrite length_app; cbn; lia).
    assert (Hbv : D bv).
    { rewrite Forall_forall in HD. apply HD, elem_of_app. left.
      eapply list_elem_of_lookup_2; eauto. }
    assert (Hv : D v).
    { rewrite Forall_forall in HD. apply HD, elem_of_app. right. left. }
    assert (Hpre : forall j u, pre !! j = Some u -> D u).
    { intros j u Hj. rewrite Forall_forall in HD. apply HD, elem_of_app. left.
      eapply list_elem_of_lookup_2; eauto. }
    replace (pre ++ v :: vs) with ((pre ++ [v]) ++ vs) in *
      by (rewrite <- app_assoc; reflexivity).
    rewrite <- Hlen.
    destruct (better v bv) eqn:Hb.
    + apply (IH (pre ++ [v]) (length pre) v); auto.
      * rewrite lookup_app_r by lia. now rewrite Nat.sub_diag.
      * intros j u Hj.
        apply lookup_app_Some in Hj as [Hj|[Hge Hj]].
        -- apply better_asym. apply (better_trans u bv v); eauto.
        -- destruct (j - length pre)%nat; cbn in Hj; [|discriminate].
           injection Hj as <-. apply better_irrefl.
      * intros j u Hlt Hj.
        rewrite lookup_app_l in Hj by lia.
        apply (better_trans u bv v); eauto.
    + apply (IH (pre ++ [v]) best bv); auto.
      * apply lookup_app_l_Some. exact Hbest.
      * intros j u Hj.
        apply lookup_app_Some in Hj as [Hj|[Hge Hj]]; eauto.
        destruct (j - length pre)%nat; cbn in Hj; [|discriminate].
        now injection Hj as <-.
      * intros j u Hlt Hj.
        assert (best < length pre)%nat by (eapply lookup_lt_Some; eauto).
        rewrite lookup_app_l in Hj by lia. eauto.
Qed.

Lemma first_best_spec (vs : list float) :
  vs <> [] -> Forall D vs -> first_best_at better vs (Pd.first_best better vs).
Proof.
  destruct vs as [|v vs]; [congruence|]. intros _ HD.
  unfold Pd.first_best.
  apply (scan_spec vs [v] O v); auto.
  - intros [|j] u Hj; cbn in Hj; [|discriminate].
    injection Hj as <-. apply better_irrefl.
  - intros j u Hlt. lia.
Qed.
End Scan.

(** ** Frames, masks and labels *)

Lemma frame_lookup (rows : list Row.t) (k : nat) (lr : nat * Row.t) :
  Pd.frame rows !! k = Some lr <-> lr.1 = k /\ rows !! k = Some lr.2.
Proof.
  unfold Pd.frame. rewrite list_lookup_imap_Some. destruct lr as [l r]; cbn.
  split.
  - intros (x & Hx & [= -> ->]). auto.
  - intros [-> H]. eauto.
Qed.

Lemma frame_increasing (rows : list Row.t) : increasing (Pd.frame rows).
Proof.
  intros k1 k2 a b [Ha _]%frame_lookup [Hb _]%frame_lookup. lia.
Qed.

Lemma filter_lookup_mono {A} (f : A -> bool) (l : list A) (k1 k2 : nat) (a b : A) :
  List.filter f l !! k1 = Some a -> List.filter f l !! k2 = Some b ->
  (k1 < k2)%nat ->
  exists i1 i2, (i1 < i2)%nat /\ l !! i1 = Some a /\ l !! i2 = Some b.
Proof.
  revert k1 k2. induction l as [|x l IH]; intros k1 k2 H1 H2 Hlt.
  - cbn in H1. discriminate.
  - cbn [List.filter] in H1, H2. destruct (f x).
    + destruct k2 as [|k2]; [lia|]. cbn in H2.
      destruct k1 as [|k1]; cbn in H1.
      * injection H1 as <-.
        assert (Hb : b ∈ l).
        { apply list_elem_of_In.
          eapply (proj1 (filter_In f b l)), list_elem_of_In.
          eapply list_elem_of_lookup_2; eauto. }
        apply list_elem_of_lookup in Hb as [i Hi].
        exists O, (S i). repeat split; [lia|assumption].
      * destruct (IH k1 k2 H1 H2) as (i1 & i2 & ? & ? & ?); [lia|].
        exists (S i1), (S i2). repeat split; [lia|assumption..].
    + destruct (IH k1 k2 H1 H2 Hlt) as (i1 & i2 & ? & ? & ?).
      exists (S i1), (S i2). repeat split; [lia|assumption..].
Qed.

Lemma select_increasing (mask : Row.t -> bool) (df : DataFrame) :
  increasing df -> increasing (Pd.select mask df).
Proof.
  intros Hdf k1 k2 a b H1 H2 Hlt.
  destruct (filter_lookup_mono _ _ _ _ _ _ H1 H2 Hlt) as (i1 & i2 & ? & ? & ?).
  eauto.
Qed.

Lemma elem_of_select_frame (mask : Row.t -> bool) (rows : list Row.t) (lr : nat * Row.t) :
  lr ∈ Pd.select mask (Pd.frame rows) <-> rows !! lr.1 = Some lr.2 /\ mask lr.2 = true.
Proof.
  unfold Pd.select. rewrite list_elem_of_In, filter_In, <- list_elem_of_In.
  rewrite list_elem_of_lookup. split.
  - intros [[k [<- Hk]%frame_lookup] Hm]. auto.
  - intros [Hk Hm]. split; [|assumption].
    exists lr.1. apply frame_lookup. auto.
Qed.

Lemma loc_increasing (df : DataFrame) (k label : nat) (r : Row.t) :
  increasing df -> df !! k = Some (label, r) -> Pd.loc df label = Ok r.
Proof.
  intros Hinc Hk. unfold Pd.loc.
  destruct (List.find _ df) as [[l' r']|] eqn:Hfind.
  - apply find_some in Hfind as [Hin Heq]. cbn in Heq.
    apply Nat.eqb_eq in Heq as ->.
    apply list_elem_of_In, list_elem_of_lookup in Hin as [k' Hk'].
    destruct (Nat.lt_trichotomy k k') as [Hlt|[->|Hlt]].
    + pose proof (Hinc _ _ _ _ Hk Hk' Hlt). cbn in *. lia.
    + pose proof (eq_trans (eq_sym Hk) Hk') as E. now injection E as ->.
    + pose proof (Hinc _ _ _ _ Hk' Hk Hlt). cbn in *. lia.
  - apply list_elem_of_lookup_2, list_elem_of_In in Hk.
    pose proof (find_none _ _ Hfind _ Hk) as Hne. cbn in Hne.
    rewrite Nat.eqb_refl in Hne. discriminate.
Qed.

(** ** What [idxmax] and [idxmin] select *)

Lemma lookup_map_Some {A B} (f : A -> B) (l : list A) (k : nat) (y : B) :
  map f l !! k = Some y <-> exists x, l !! k = Some x /\ y = f x.
Proof.
  change (map f l) with (f <$> l). rewrite list_lookup_fmap_Some.
  split; intros (x & ? & ?); eauto.
Qed.

Section Extremum.
Variable better : float -> float -> bool.
Variable fill_value : float.
Variable name : string.
Hypothesis fill_number : F64.is_nan fill_value = false.
Hypothesis better_asym :
  forall a b, better a b = true -> better b a = false.
Hypothesis better_trans :
  forall a b c,
    F64.is_nan a = false -> F64.is_nan b = false -> F64.is_nan c = false ->
    better a b = false -> better c b = true -> better c a = true.
Hypothesis better_nan_l : forall a b, F64.is_nan a = true -> better a b = false.
Hypothesis better_nan_r : forall a b, F64.is_nan b = true -> better a b = false.
Hypothesis better_eqb :
  forall a b, better a b = true -> (b =? a)%float = false.

Lemma fill_is_number x : F64.is_nan (Pd.fill fill_value x) = false.
Proof. unfold Pd.fill. destruct (F64.is_nan x) eqn:E; auto. Qed.

Lemma fill_number_id x : F64.is_nan x = false -> Pd.fill fill_value x = x.
Proof. unfold Pd.fill. now intros ->. Qed.

Lemma idx_extremum_spec (col : Row.t -> float) (df : DataFrame) :
  (exists lr, lr ∈ df /\ F64.is_nan (col lr.2) = false) ->
  exists k label pick,
    Pd.idx_extremum (Pd.first_best better) fill_value name col df = Ok label /\
    df !! k = Some (label, pick) /\
    (forall j lr, df !! j = Some lr -> better (col lr.2) (col pick) = false) /\
    (forall j lr, (j < k)%nat -> df !! j = Some lr ->
       (col lr.2 =? col pick)%float = false).
Proof.
  intros (lr0 & Hin0 & Hnum0).
  unfold Pd.idx_extremum.
  set (vals := map (fun lr => col lr.2) df).
  set (filled := map (Pd.fill fill_value) vals).
  assert (Hne : filled <> []).
  { subst filled vals. destruct df; [inversion Hin0|discriminate]. }
  assert (HD : Forall (fun x => F64.is_nan x = false) filled).
  { subst filled. apply Forall_forall. intros x Hx.
    apply list_elem_of_In, in_map_iff in Hx as (y & <- & _).
    apply fill_is_number. }
  destruct (first_best_spec better _ better_asym better_trans filled Hne HD)
    as (vk & Hk & Hmax & Hfirst).
  set (k := Pd.first_best better filled) in *.
  assert (Hget : forall j v, filled !! j = Some v <->
            exists lr, df !! j = Some lr /\ v = Pd.fill fill_value (col lr.2)).
  { intros j v. subst filled vals. rewrite lookup_map_Some. split.
    - intros (x & (lr & Hlr & ->)%lookup_map_Some & ->). eauto.
    - intros (lr & Hlr & ->). eexists. split; [|reflexivity].
      apply lookup_map_Some. eauto. }
  apply Hget in Hk as ([label pick] & Hdf & ->). cbn in *.
  exists k, label, pick.
  assert (Hall : forallb F64.is_nan vals = false).
  { apply not_true_is_false. intros Hall.
    rewrite forallb_forall in Hall.
    assert (Hv : In (col lr0.2) vals).
    { subst vals. apply in_map_iff. exists lr0. split; [reflexivity|].
      now apply list_elem_of_In. }
    apply Hall in Hv. congruence. }
  rewrite Hall. fold filled. fold k. rewrite Hdf.
  destruct vals eqn:Evals; [now cbn in Hne|].
  split; [reflexivity|]. split; [reflexivity|].
  split.
  - intros j lr Hj.
    destruct (F64.is_nan (col lr.2)) eqn:E1; [now apply better_nan_l|].
    destruct (F64.is_nan (col pick)) eqn:E2; [now apply better_nan_r|].
    rewrite <- (fill_number_id _ E1), <- (fill_number_id _ E2).
    apply (Hmax j). apply Hget. eauto.
  - intros j lr Hlt Hj.
    destruct (F64.is_nan (col lr.2)) eqn:E1; [now apply F64Facts.eqb_nan_l|].
    destruct (F64.is_nan (col pick)) eqn:E2; [now apply F64Facts.eqb_nan_r|].
    apply better_eqb.
    rewrite <- (fill_number_id _ E1), <- (fill_number_id _ E2).
    apply (Hfirst j); [assumption|]. apply Hget. eauto.
Qed.

Lemma row_at_extremum_spec (col : Row.t -> float) (mask : Row.t -> bool)
    (rows : list Row.t) :
  has_number col mask rows ->
  exists pick,
    (label ← Pd.idx_extremum (Pd.first_best better) fill_value name col
               (Pd.select mask (Pd.frame rows));
     Pd.loc (Pd.select mask (Pd.frame rows)) label) = Ok pick /\
    first_extremum better col mask rows pick.
Proof.
  intros (r0 & Hin0 & Hm0 & Hnum0).
  set (sdf := Pd.select mask (Pd.frame rows)).
  assert (Hinc : increasing sdf)
    by apply select_increasing, frame_increasing.
  apply list_elem_of_lookup in Hin0 as [i0 Hi0].
  destruct (idx_extremum_spec col sdf)
    as (k & label & pick & Hidx & Hk & Hmax & Hfirst).
  { exists (i0, r0). split; [|assumption].
    apply elem_of_select_frame. auto. }
  exists pick. rewrite Hidx. cbn.
  split; [eapply loc_increasing; eauto|].
  assert (Hpick : (label, pick) ∈ sdf)
    by (eapply list_elem_of_lookup_2; eauto).
  apply elem_of_select_frame in Hpick as [Hrow Hmask]. cbn in *.
  exists label. repeat split; [assumption..| |].
  - intros j r Hj Hm.
    assert (Hjr : (j, r) ∈ sdf) by (apply elem_of_select_frame; auto).
    apply list_elem_of_lookup in Hjr as [k' Hk'].
    apply (Hmax k' (j, r) Hk').
  - intros j r Hlt Hj Hm.
    assert (Hjr : (j, r) ∈ sdf) by (apply elem_of_select_frame; auto).
    apply list_elem_of_lookup in Hjr as [k' Hk'].
    apply (Hfirst k' (j, r)); [|assumption].
    destruct (Nat.lt_trichotomy k' k) as [?|[->|Hgt]]; [assumption| |].
    + pose proof (eq_trans (eq_sym Hk) Hk') as E. injection E as -> _. lia.
    + pose proof (Hinc _ _ _ _ Hk Hk' Hgt). cbn in *. lia.
Qed.
End Extremum.

Lemma row_at_idxmax_spec (col : Row.t -> float) (size : string) (rows : list Row.t) :
  has_number col (in_size size) rows ->
  exists pick,
    row_at_idxmax col (Pd.by_size size (Pd.frame rows)) = Ok pick /\
    first_extremum Pd.gt col (in_size size) rows pick.
Proof.
  apply (row_at_extremum_spec Pd.gt neg_infinity "argmax"); unfold Pd.gt.
  - reflexivity.
  - intros a b. apply F64Facts.ltb_asym.
  - intros a b c Ha Hb Hc. now apply F64Facts.le_lt_trans.
  - intros a b. apply F64Facts.ltb_nan_r.
  - intros a b. apply F64Facts.ltb_nan_l.
  - intros a b. apply F64Facts.ltb_eqb_false.
Qed.


Lemma in_size_true (size : string) (r : Row.t) :
  in_size size r = true <-> Row.size r = size.
Proof. unfold in_size. apply String.eqb_eq. Qed.

Lemma group_has_number_mask col size rows :
  group_has_number col size rows -> has_number col (in_size size) rows.
Proof.
  intros (r & Hin & Hs & Hn). exists r. rewrite in_size_true. auto.
Qed.

Lemma first_extremum_group better col size rows pick :
  first_extremum better col (in_size size) rows pick ->
  first_best_in_group better col size rows pick.
Proof.
  intros (i & Hi & Hm & Hmax & Hfirst). exists i.
  rewrite in_size_true in Hm. repeat split; [assumption..| |].
  - intros j r Hj Hs. apply (Hmax j); [assumption|]. now apply in_size_true.
  - intros j r Hlt Hj Hs. apply (Hfirst j); [assumption..|]. now apply in_size_true.
Qed.

Lemma idxmax_in_group col size rows :
  group_has_number col size rows ->
  exists pick,
    row_at_idxmax col (Pd.by_size size (Pd.frame rows)) = Ok pick /\
    first_best_in_group Pd.gt col size rows pick.
Proof.
  intros H%group_has_number_mask.
  destruct (row_at_idxmax_spec col size rows H) as (pick & ? & ?).
  exists pick. split; [assumption|]. now apply first_extremum_group.
Qed.


(** C2: when the rows of size ["full"] hold a recall value (a number), the
    row the go/no-go analysis evaluates is a ["full"] row of the dataset, no
    ["full"] row has a strictly higher [recall_at_10], and every ["full"]
    row before it in dataset order has a different [recall_at_10]: it is the
    first ["full"] row attaining the maximal recall, so a later row with the
    same recall is not the one chosen. *)
Theorem C2_representative_first_max_recall (rows : list Row.t) :
  (exists r, r ∈ rows /\ Row.size r = "full" /\
             F64.is_nan (Row.recall_at_10 r) = false) ->
  exists i rep,
    representative (Pd.frame rows) = Ok rep /\
    rows !! i = Some rep /\ Row.size rep = "full" /\
    (forall j r, rows !! j = Some r -> Row.size r = "full" ->
       (Row.recall_at_10 rep <? Row.recall_at_10 r)%float = false) /\
    (forall j r, (j < i)%nat -> rows !! j = Some r -> Row.size r = "full" ->
       (Row.recall_at_10 r =? Row.recall_at_10 rep)%float = false).
Proof.
  intros H.
  destruct (idxmax_in_group Row.recall_at_10 "full" rows H)
    as (rep & Hrep & i & Hi & Hs & Hmax & Hfirst).
  exists i, rep. repeat split; assumption.
Qed.

Lemma C2_witness :
  exists i rep,
    representative (Pd.frame sample_rows) = Ok rep /\
    sample_rows !! i = Some rep /\ Row.size rep = "full" /\
    (forall j r, sample_rows !! j = Some r -> Row.size r = "full" ->
       (Row.recall_at_10 rep <? Row.recall_at_10 r)%float = false) /\
    (forall j r, (j < i)%nat -> sample_rows !! j = Some r -> Row.size r = "full" ->
       (Row.recall_at_10 r =? Row.recall_at_10 rep)%float = false).
Proof.
  apply (C2_representative_first_max_recall sample_rows).
  exists (sample "full" 32 1200 80 0.8 0.5).
  split; [|split; reflexivity].
  apply list_elem_of_In. cbn. auto.
Defined.

(** on the sample the representative is the row with [ef_search = 64], the
    first of the two rows with recall 0.9 *)
Example representative_sample :
  representative (Pd.frame sample_rows) = Ok (sample "full" 64 1100 90 0.9 0.5).
Proof. vm_compute. reflexivity. Qed.




Example picks_sample :
  picks (Pd.by_size "full" (Pd.frame sample_rows))
  = Ok (mkPicks (sample "full" 32 1200 80 0.8 0.5)
                (sample "full" 64 1100 90 0.9 0.5)
                (sample "full" 32 1200 80 0.8 0.5)).
Proof. vm_compute. reflexivity. Qed.



(** ** The go/no-go verdict *)

Lemma passes_meets (d : Dimension) (r : Row.t) :
  passes d (evaluate r) = meets d (value d r).
Proof. destruct d; reflexivity. Qed.



Lemma GO_neq_NO_GO : GO <> NO_GO.
Proof. unfold GO, NO_GO. intros H. apply String.eqb_eq in H. vm_compute in H. discriminate. Qed.



(** ** The tuning guidance *)

Lemma select_select (m1 m2 : Row.t -> bool) (df : DataFrame) :
  Pd.select m2 (Pd.select m1 df) = Pd.select (fun r => m1 r && m2 r) df.
Proof.
  unfold Pd.select. induction df as [|lr df IH]; [reflexivity|].
  cbn. destruct (m1 lr.2); cbn; [destruct (m2 lr.2); cbn|]; now rewrite IH.
Qed.

Lemma iloc0_select_frame_Some (mask : Row.t -> bool) (rows : list Row.t)
    (i : nat) (r : Row.t) :
  rows !! i = Some r -> mask r = true ->
  (forall j r', (j < i)%nat -> rows !! j = Some r' -> mask r' = false) ->
  Pd.iloc0_or_none (Pd.select mask (Pd.frame rows)) = Some r.
Proof.
  intros Hi Hm Hfirst.
  assert (Hin : (i, r) ∈ Pd.select mask (Pd.frame rows))
    by (apply elem_of_select_frame; auto).
  pose proof (select_increasing mask _ (frame_increasing rows)) as Hinc.
  apply list_elem_of_lookup in Hin as [k Hk].
  destruct (Pd.select mask (Pd.frame rows)) as [|[l0 r0] sdf] eqn:E;
    [discriminate|].
  cbn. destruct k as [|k].
  - cbn in Hk. now injection Hk as _ ->.
  - assert (H0 : (l0, r0) ∈ Pd.select mask (Pd.frame rows))
      by (rewrite E; left).
    apply elem_of_select_frame in H0 as [Hl0 Hm0]. cbn in *.
    assert (Hlt : (l0 < i)%nat).
    { apply (Hinc O (S k) (l0, r0) (i, r)); [reflexivity|exact Hk|lia]. }
    rewrite (Hfirst _ _ Hlt Hl0) in Hm0. discriminate.
Qed.

Lemma iloc0_select_frame_None (mask : Row.t -> bool) (rows : list Row.t) :
  (forall r, r ∈ rows -> mask r = false) ->
  Pd.iloc0_or_none (Pd.select mask (Pd.frame rows)) = None.
Proof.
  intros Hnone.
  destruct (Pd.select mask (Pd.frame rows)) as [|[l0 r0] sdf] eqn:E;
    [reflexivity|].
  assert (H0 : (l0, r0) ∈ Pd.select mask (Pd.frame rows)) by (rewrite E; left).
  apply elem_of_select_frame in H0 as [Hl0 Hm0]. cbn in *.
  rewrite (Hnone r0) in Hm0; [discriminate|].
  eapply list_elem_of_lookup_2; eauto.
Qed.

Lemma full_ef_mask_true ef r :
  full_ef_mask ef r = true <-> Row.size r = "full" /\ Row.ef_search r = ef.
Proof.
  unfold full_ef_mask. now rewrite andb_true_iff, String.eqb_eq, Z.eqb_eq.
Qed.

Lemma first_full_with_ef_mask ef df :
  first_full_with_ef ef df = Pd.iloc0_or_none (Pd.select (full_ef_mask ef) df).
Proof.
  unfold first_full_with_ef, Pd.by_ef_search, Pd.by_size.
  now rewrite select_select.
Qed.

Lemma first_full_with_ef_Some ef rows r :
  first_full_ef ef rows r -> first_full_with_ef ef (Pd.frame rows) = Some r.
Proof.
  intros (i & Hi & Hs & He & Hfirst).
  rewrite first_full_with_ef_mask.
  apply (iloc0_select_frame_Some _ _ i); [assumption| |].
  - apply full_ef_mask_true. auto.
  - intros j r' Hlt Hj. apply not_true_is_false.
    rewrite full_ef_mask_true. eauto.
Qed.

Lemma first_full_with_ef_None ef rows :
  no_full_ef ef rows -> first_full_with_ef ef (Pd.frame rows) = None.
Proof.
  intros Hnone. rewrite first_full_with_ef_mask.
  apply iloc0_select_frame_None. intros r Hr. apply not_true_is_false.
  rewrite full_ef_mask_true. now apply Hnone.
Qed.

Lemma elem_of_unique_acc {A} `{EqDecision A} (seen l : list A) (x : A) :
  x ∈ Pd.unique_acc seen l <-> x ∈ l /\ x ∉ seen.
Proof.
  revert seen. induction l as [|y l IH]; intros seen; cbn.
  - split; [intros H0; inversion H0|intros [H0 _]; inversion H0].
  - destruct (decide (y ∈ seen)) as [Hy|Hy].
    + rewrite IH, elem_of_cons. split; [tauto|].
      intros [[->|?] ?]; tauto.
    + rewrite elem_of_cons, IH, elem_of_cons, elem_of_cons.
      destruct (decide (x = y)) as [->|Hne]; tauto.
Qed.

Lemma elem_of_unique {A} `{EqDecision A} (l : list A) (x : A) :
  x ∈ Pd.unique l <-> x ∈ l.
Proof.
  unfold Pd.unique. rewrite elem_of_unique_acc. split; [tauto|].
  intros ?. split; [assumption|]. apply not_elem_of_nil.
Qed.

Lemma elem_of_unique_sizes (rows : list Row.t) (size : string) :
  size ∈ unique_sizes (Pd.frame rows) <-> exists r, r ∈ rows /\ Row.size r = size.
Proof.
  unfold unique_sizes. rewrite elem_of_unique, list_elem_of_In, in_map_iff.
  split.
  - intros ([l r] & Hs & Hin). exists r. split; [|exact Hs].
    apply list_elem_of_In, list_elem_of_lookup in Hin as [k [_ Hk]%frame_lookup].
    eapply list_elem_of_lookup_2; eauto.
  - intros (r & Hin & Hs). apply list_elem_of_lookup in Hin as [k Hk].
    exists (k, r). split; [exact Hs|].
    apply list_elem_of_In, list_elem_of_lookup. exists k.
    apply frame_lookup. auto.
Qed.

Lemma tuning_lines_both (rows : list Row.t) (ef_32 ef_128 : Row.t) :
  first_full_ef 32 rows ef_32 -> first_full_ef 128 rows ef_128 ->
  tuning_lines (Pd.frame rows) = [tradeoff_line ef_32 ef_128].
Proof.
  intros H32 H128. unfold tuning_lines.
  rewrite bool_decide_eq_true_2.
  - now rewrite (first_full_with_ef_Some _ _ _ H32),
      (first_full_with_ef_Some _ _ _ H128).
  - apply elem_of_unique_sizes. destruct H32 as (i & Hi & Hs & _).
    exists ef_32. split; [|exact Hs]. eapply list_elem_of_lookup_2; eauto.
Qed.

Lemma tuning_lines_absent (rows : list Row.t) :
  no_full_ef 32 rows \/ no_full_ef 128 rows -> tuning_lines (Pd.frame rows) = [].
Proof.
  intros H. unfold tuning_lines.
  destruct (bool_decide _); [|reflexivity].
  destruct H as [H|H]; rewrite (first_full_with_ef_None _ _ H);
    [reflexivity|now destruct (first_full_with_ef 32 _)].
Qed.

(** C4: with [ef_32] and [ef_128] the first ["full"] rows of [ef_search] 32
    and 128, the tuning section holds one trade-off line, which prints
    [(v128 - v32) / v32 * 100] of their [p95_latency_ms] and of their
    [recall_at_10] in the format [+.1f]; for latencies 80 and 100 and recalls
    0.80 and 0.90 it reads [+25.0%] and [+12.5%]; when no ["full"] row has
    [ef_search] 32, or none has 128, the section holds no such line and the
    advisory lines follow the heading directly. *)
Theorem C4_tuning_guidance_line :
  (forall (rows : list Row.t) (ef_32 ef_128 : Row.t),
     first_full_ef 32 rows ef_32 -> first_full_ef 128 rows ef_128 ->
     tuning_lines (Pd.frame rows)
     = [ "- **ef_search=32 vs 128**: "
         +:+ Py.fmt_f true 1
               ((Row.p95_latency_ms ef_128 - Row.p95_latency_ms ef_32)
                / Row.p95_latency_ms ef_32 * 100)%float
         +:+ "% latency, "
         +:+ Py.fmt_f true 1
               ((Row.recall_at_10 ef_128 - Row.recall_at_10 ef_32)
                / Row.recall_at_10 ef_32 * 100)%float
         +:+ "% recall" ]) /\
  (forall ef_32 ef_128 : Row.t,
     Row.p95_latency_ms ef_32 = 80%float -> Row.recall_at_10 ef_32 = 0.80%float ->
     Row.p95_latency_ms ef_128 = 100%float -> Row.recall_at_10 ef_128 = 0.90%float ->
     tradeoff_line ef_32 ef_128
     = "- **ef_search=32 vs 128**: +25.0% latency, +12.5% recall") /\
  (forall rows : list Row.t,
     no_full_ef 32 rows \/ no_full_ef 128 rows ->
     tuning_lines (Pd.frame rows) = []) /\
  (forall (df : DataFrame) (report : list string),
     report_lines df = Ok report ->
     exists sections,
       report = summary_lines df ++ sections ++ complete_results_lines df
                ++ tuning_lines df ++ advisory_lines).
Proof.
  repeat split.
  - intros rows ef_32 ef_128 H32 H128.
    now rewrite (tuning_lines_both _ _ _ H32 H128).
  - intros ef_32 ef_128 Hl32 Hr32 Hl128 Hr128.
    unfold tradeoff_line. rewrite Hl32, Hr32, Hl128, Hr128.
    vm_compute. reflexivity.
  - apply tuning_lines_absent.
  - intros df report H. unfold report_lines in H.
    destruct (size_sections df (unique_sizes df)) as [sections|]; cbn in H;
      [|discriminate].
    injection H as <-. eauto.
Qed.

Lemma sample_first_full_32 :
  first_full_ef 32 sample_rows (sample "full" 32 1200 80 0.8 0.5).
Proof.
  exists 1%nat. repeat split.
  intros [|[|j]] r' Hlt Hj; [|lia..].
  injection Hj as <-. intros [Hs _]. discriminate.
Qed.

Lemma sample_first_full_128 :
  first_full_ef 128 sample_rows (sample "full" 128 1000 100 0.9 0.55).
Proof.
  exists 3%nat. repeat split.
  intros [|[|[|[|j]]]] r' Hlt Hj; [| | |lia..];
    injection Hj as <-; intros [Hs He]; discriminate.
Qed.

Lemma C4_witness :
  tuning_lines (Pd.frame sample_rows)
  = [ "- **ef_search=32 vs 128**: "
      +:+ Py.fmt_f true 1 ((100 - 80) / 80 * 100)%float
      +:+ "% latency, "
      +:+ Py.fmt_f true 1 ((0.9 - 0.8) / 0.8 * 100)%float
      +:+ "% recall" ].
Proof.
  apply (proj1 C4_tuning_guidance_line sample_rows
           (sample "full" 32 1200 80 0.8 0.5)
           (sample "full" 128 1000 100 0.9 0.55)).
  - exact sample_first_full_32.
  - exact sample_first_full_128.
Defined.

Example tuning_lines_sample :
  tuning_lines (Pd.frame sample_rows)
  = ["- **ef_search=32 vs 128**: +25.0% latency, +12.5% recall"].
Proof. vm_compute. reflexivity. Qed.

(** binary64 arithmetic gives 12.499999999999996 for the recall change,
    which [+.1f] prints as [+12.5] *)
Example recall_change_rounding :
  relative_change 0.8 0.9 = 12.499999999999996%float /\
  (relative_change 0.8 0.9 =? 12.5)%float = false.
Proof. vm_compute. split; reflexivity. Qed.

Lemma zero_divisor_spec (v : float) :
  zero_divisor v = true -> exists s, Prim2SF v = S754_zero s.
Proof.
  unfold zero_divisor. rewrite FloatAxioms.eqb_spec.
  change (Prim2SF 0) with (S754_zero false). unfold SFeqb.
  destruct (Prim2SF v) as [s|s| |s m e]; cbn; try discriminate; eauto;
    destruct s; discriminate.
Qed.

(** with a zero divisor the script does not raise: the binary64 division
    gives an infinity or NaN *)
Lemma quotient_zero_divisor (n v32 : float) :
  zero_divisor v32 = true ->
  Prim2SF (n / v32) = S754_nan \/ exists s, Prim2SF (n / v32) = S754_infinity s.
Proof.
  intros [s0 Hz]%zero_divisor_spec.
  rewrite FloatAxioms.div_spec, Hz.
  destruct (Prim2SF n) as [s|s| |s m e]; cbn; eauto.
Qed.

(** and so does the product by 100 *)
Lemma relative_change_zero_divisor (v32 v128 : float) :
  zero_divisor v32 = true ->
  Prim2SF (relative_change v32 v128) = S754_nan \/
  exists s, Prim2SF (relative_change v32 v128) = S754_infinity s.
Proof.
  intros H. unfold relative_change.
  rewrite FloatAxioms.mul_spec.
  set (c := Prim2SF 100). vm_compute in c. subst c.
  destruct (quotient_zero_divisor (v128 - v32) v32 H) as [->|[s ->]]; cbn; eauto.
Qed.

(** the trade-off line then prints it *)
Lemma fmt_zero_divisor (v32 v128 : float) :
  zero_divisor v32 = true ->
  Py.fmt_f true 1 (relative_change v32 v128) = "+nan" \/
  Py.fmt_f true 1 (relative_change v32 v128) = "+inf" \/
  Py.fmt_f true 1 (relative_change v32 v128) = "-inf".
Proof.
  intros H. unfold Py.fmt_f.
  destruct (relative_change_zero_divisor v32 v128 H) as [->|[s ->]];
    [|destruct s]; cbn; auto.
Qed.

(** C10: when the first ["full"] rows with [ef_search] 32 and 128 exist, the
    trade-off line prints the two quotients [(v128 - v32) / v32 * 100], whose
    divisors are the [p95_latency_ms] and the [recall_at_10] of the 32-row,
    with no guard.  For a 32-row with both values not negative: neither
    divisor is zero exactly when both values are strictly positive; a
    divisor that is zero makes its division give an infinity or NaN, which
    the line prints as [inf] or [nan]; and the data-model bounds admit a row
    where both are zero. *)
Theorem C10_zero_divisor_precondition
    (rows : list Row.t) (ef_32 ef_128 : Row.t) :
  first_full_ef 32 rows ef_32 -> first_full_ef 128 rows ef_128 ->
  (0 <=? Row.p95_latency_ms ef_32)%float = true ->
  (0 <=? Row.recall_at_10 ef_32)%float = true ->
  let l32 := Row.p95_latency_ms ef_32 in
  let l128 := Row.p95_latency_ms ef_128 in
  let r32 := Row.recall_at_10 ef_32 in
  let r128 := Row.recall_at_10 ef_128 in
  tuning_lines (Pd.frame rows)
  = [ "- **ef_search=32 vs 128**: "
      +:+ Py.fmt_f true 1 ((l128 - l32) / l32 * 100)%float
      +:+ "% latency, "
      +:+ Py.fmt_f true 1 ((r128 - r32) / r32 * 100)%float
      +:+ "% recall" ] /\
  ((l32 =? 0)%float = false /\ (r32 =? 0)%float = false
   <-> (0 <? l32)%float = true /\ (0 <? r32)%float = true) /\
  ((l32 =? 0)%float = true ->
   (Prim2SF ((l128 - l32) / l32) = S754_nan \/
    exists s, Prim2SF ((l128 - l32) / l32) = S754_infinity s) /\
   (Py.fmt_f true 1 ((l128 - l32) / l32 * 100)%float = "+nan" \/
    Py.fmt_f true 1 ((l128 - l32) / l32 * 100)%float = "+inf" \/
    Py.fmt_f true 1 ((l128 - l32) / l32 * 100)%float = "-inf")) /\
  ((r32 =? 0)%float = true ->
   (Prim2SF ((r128 - r32) / r32) = S754_nan \/
    exists s, Prim2SF ((r128 - r32) / r32) = S754_infinity s) /\
   (Py.fmt_f true 1 ((r128 - r32) / r32 * 100)%float = "+nan" \/
    Py.fmt_f true 1 ((r128 - r32) / r32 * 100)%float = "+inf" \/
    Py.fmt_f true 1 ((r128 - r32) / r32 * 100)%float = "-inf")) /\
  (exists r0 : Row.t,
     data_model_bounds r0 = true /\
     (Row.p95_latency_ms r0 =? 0)%float = true /\
     (Row.recall_at_10 r0 =? 0)%float = true).
Proof.
  intros H32 H128 Hl Hr. cbn zeta. split; [|split; [|split; [|split]]].
  - now rewrite (tuning_lines_both _ _ _ H32 H128).
  - now rewrite (F64Facts.leb_neq_ltb _ _ Hl), (F64Facts.leb_neq_ltb _ _ Hr).
  - intros Hz. split.
    + now apply quotient_zero_divisor.
    + exact (fmt_zero_divisor _ (Row.p95_latency_ms ef_128) Hz).
  - intros Hz. split.
    + now apply quotient_zero_divisor.
    + exact (fmt_zero_divisor _ (Row.recall_at_10 ef_128) Hz).
  - exists (sample "full" 32 1200 0 0 0.5). repeat split.
Qed.

Lemma C10_witness :
  tuning_lines (Pd.frame sample_rows)
  = [ "- **ef_search=32 vs 128**: "
      +:+ Py.fmt_f true 1 ((100 - 80) / 80 * 100)%float
      +:+ "% latency, "
      +:+ Py.fmt_f true 1 ((0.9 - 0.8) / 0.8 * 100)%float
      +:+ "% recall" ] /\
  ((80 =? 0)%float = false /\ (0.8 =? 0)%float = false
   <-> (0 <? 80)%float = true /\ (0 <? 0.8)%float = true) /\
  ((80 =? 0)%float = true ->
   (Prim2SF ((100 - 80) / 80) = S754_nan \/
    exists s, Prim2SF ((100 - 80) / 80) = S754_infinity s) /\
   (Py.fmt_f true 1 ((100 - 80) / 80 * 100)%float = "+nan" \/
    Py.fmt_f true 1 ((100 - 80) / 80 * 100)%float = "+inf" \/
    Py.fmt_f true 1 ((100 - 80) / 80 * 100)%float = "-inf")) /\
  ((0.8 =? 0)%float = true ->
   (Prim2SF ((0.9 - 0.8) / 0.8) = S754_nan \/
    exists s, Prim2SF ((0.9 - 0.8) / 0.8) = S754_infinity s) /\
   (Py.fmt_f true 1 ((0.9 - 0.8) / 0.8 * 100)%float = "+nan" \/
    Py.fmt_f true 1 ((0.9 - 0.8) / 0.8 * 100)%float = "+inf" \/
    Py.fmt_f true 1 ((0.9 - 0.8) / 0.8 * 100)%float = "-inf")) /\
  (exists r0 : Row.t,
     data_model_bounds r0 = true /\
     (Row.p95_latency_ms r0 =? 0)%float = true /\
     (Row.recall_at_10 r0 =? 0)%float = true).
Proof.
  apply (C10_zero_divisor_precondition sample_rows
           (sample "full" 32 1200 80 0.8 0.5)
           (sample "full" 128 1000 100 0.9 0.55)).
  - exact sample_first_full_32.
  - exact sample_first_full_128.
  - reflexivity.
  - reflexivity.
Defined.

(** a 32-row within the data-model bounds whose latency and recall are zero:
    both divisions are by zero, and the line shows it *)
Example tradeoff_line_zero_divisor :
  tradeoff_line (sample "full" 32 1200 0 0 0.5) (sample "full" 128 1000 100 0 0.55)
  = "- **ef_search=32 vs 128**: +inf% latency, +nan% recall".
Proof. vm_compute. reflexivity. Qed.

(** ** The loader *)

Lemma printed_printed w m1 m2 : printed (printed w m1) m2 = printed w (m1 ++ m2).
Proof. unfold printed. cbn. now rewrite app_assoc. Qed.

Lemma print_printed s w : print s w = (printed w [s], Ok tt).
Proof. reflexivity. Qed.

Lemma loaded_cons (env : Env) (f : string) (fs : list string) :
  loaded env (f :: fs)
  = match read_csv env f with
    | Ok rows => map (with_source_file (path_name f)) rows :: loaded env fs
    | Raise _ => loaded env fs
    end.
Proof.
  unfold loaded. cbn [List.filter]. unfold readable at 1.
  destruct (read_csv env f) eqn:E; [|reflexivity].
  cbn [map]. unfold rows_of at 1. now rewrite E.
Qed.

Lemma load_spec (env : Env) (csv_files : list string) (w : World) :
  load env csv_files w
  = (printed w (map (load_message env) csv_files), Ok (loaded env csv_files)).
Proof.
  revert w. induction csv_files as [|f fs IH]; intros w.
  - unfold printed. cbn. rewrite app_nil_r. now destruct w.
  - cbn [load map]. rewrite loaded_cons. unfold load_message at 1.
    destruct (read_csv env f) as [rows|e]; unfold mbind, M_bind;
      rewrite print_printed, IH, printed_printed.
    + rewrite length_map. reflexivity.
    + reflexivity.
Qed.

Lemma concat_loaded (env : Env) (csv_files : list string) :
  concat (loaded env csv_files) = flat_map (rows_of env) csv_files.
Proof.
  unfold loaded. induction csv_files as [|f fs IH]; [reflexivity|].
  cbn. unfold readable at 1, rows_of at 2.
  destruct (read_csv env f) eqn:E; cbn.
  - rewrite IH. unfold rows_of at 1. now rewrite E.
  - exact IH.
Qed.

Lemma loaded_nil (env : Env) (csv_files : list string) :
  loaded env csv_files = [] <-> forallb (fun f => negb (readable env f)) csv_files = true.
Proof.
  unfold loaded. induction csv_files as [|f fs IH]; [cbn; tauto|].
  cbn. destruct (readable env f); cbn; [split; discriminate|exact IH].
Qed.

(** the three ways [analyze_benchmarks] ends *)
Lemma analyze_benchmarks_cases (env : Env) (csv_pattern : string) (w : World) :
  let csv_files := glob env csv_pattern in
  let w1 := printed w (found_message csv_files :: map (load_message env) csv_files) in
  analyze_benchmarks env csv_pattern w =
  match csv_files with
  | [] => (printed w [no_files_message csv_pattern], Ok tt)
  | _ =>
      if forallb (fun f => negb (readable env f)) csv_files
      then (printed w1 [no_valid_message], Ok tt)
      else generate_report (Pd.frame (flat_map (rows_of env) csv_files)) w1
  end.
Proof.
  cbn zeta. unfold analyze_benchmarks.
  destruct (glob env csv_pattern) as [|f fs] eqn:Eglob; [reflexivity|].
  unfold mbind, M_bind. rewrite print_printed, load_spec, printed_printed.
  change ([_] ++ ?l) with (found_message (f :: fs) :: l).
  destruct (forallb _ (f :: fs)) eqn:Eall.
  - apply loaded_nil in Eall. rewrite Eall. reflexivity.
  - destruct (loaded env (f :: fs)) as [|d ds] eqn:El.
    + apply loaded_nil in El. congruence.
    + unfold Pd.concat_ignore_index. now rewrite <- El, concat_loaded.
Qed.

(** ** [generate_report]: content, file and console *)

Lemma picks_best_recall (size_df : DataFrame) (p : Picks) :
  picks size_df = Ok p ->
  row_at_idxmax Row.recall_at_10 size_df = Ok (best_recall p).
Proof.
  unfold picks. intros H.
  destruct (row_at_idxmin _ _) as [bl|]; cbn in H; [|discriminate].
  destruct (row_at_idxmax Row.recall_at_10 _) as [br|]; cbn in H; [|discriminate].
  destruct (row_at_idxmax Row.throughput_chunks_per_min _) as [bt|];
    cbn in H; [|discriminate].
  now injection H as <-.
Qed.

Lemma size_section_picks (df : DataFrame) (size : string) (lines : list string) :
  size_section df size = Ok lines -> exists p, picks (Pd.by_size size df) = Ok p.
Proof.
  unfold size_section. intros H.
  destruct (go_no_go_block _ _); cbn in H; [|discriminate].
  destruct (picks _) as [p|]; cbn in H; [eauto|discriminate].
Qed.

Lemma size_sections_picks (df : DataFrame) (sizes : list string) (lines : list string) :
  size_sections df sizes = Ok lines ->
  forall size, size ∈ sizes -> exists p, picks (Pd.by_size size df) = Ok p.
Proof.
  revert lines. induction sizes as [|s sizes IH]; intros lines H size Hin.
  - inversion Hin.
  - cbn [size_sections] in H.
    destruct (size_section df s) as [sec|] eqn:Es; cbn in H; [|discriminate].
    destruct (size_sections df sizes) as [rest|] eqn:Er; cbn in H; [|discriminate].
    apply elem_of_cons in Hin as [->|Hin].
    + eapply size_section_picks; eauto.
    + eapply IH; eauto.
Qed.

Lemma for_each_summary (df : DataFrame) (sizes : list string) (w : World) :
  (forall size, size ∈ sizes ->
     exists best, row_at_idxmax Row.recall_at_10 (Pd.by_size size df) = Ok best) ->
  for_each sizes (print_best df) w
  = (printed w (summary_prints df sizes), Ok tt).
Proof.
  revert w. induction sizes as [|s sizes IH]; intros w Hall.
  - unfold printed. cbn. rewrite app_nil_r. now destruct w.
  - destruct (Hall s) as [best Hbest]; [left|].
    cbn [for_each summary_prints flat_map]. unfold mbind, M_bind.
    unfold print_best at 1. unfold mbind, M_bind, lift.
    rewrite Hbest, print_printed, IH, printed_printed; [reflexivity|].
    intros size Hin. apply Hall. now right.
Qed.

Lemma generate_report_raise (df : DataFrame) (w : World) (e : exn) :
  report_content df = Raise e -> generate_report df w = (w, Raise e).
Proof.
  intros H. unfold generate_report, mbind, M_bind, lift. now rewrite H.
Qed.

Lemma generate_report_ok (df : DataFrame) (w : World) (content : string) :
  report_content df = Ok content ->
  generate_report df w
  = (mkWorld (stdout w ++ console_lines df)
             (<[report_path := content]> (files w)), Ok tt).
Proof.
  intros H. unfold generate_report, mbind, M_bind, lift. rewrite H.
  unfold write_file. rewrite !print_printed, for_each_summary.
  - rewrite !printed_printed. reflexivity.
  - intros size Hin. unfold report_content, report_lines in H.
    destruct (size_sections df (unique_sizes df)) as [secs|] eqn:Es;
      cbn in H; [|discriminate].
    destruct (size_sections_picks _ _ _ Es size Hin) as [p Hp].
    exists (best_recall p). now apply picks_best_recall.
Qed.


(** the report rendered from it prints the two values *)
Example bad_row_reaches_report :
  report_lines (Pd.frame (flat_map (rows_of bad_env) (glob bad_env "*.csv")))
  ≫= (fun report => mret (report !! 33%nat))
  = Ok (Some "| full | 100,000 | 32 | 12.5 | 1200 | 2.5 | 0.50 | -3.0 | 1.500 |").
Proof. vm_compute. reflexivity. Qed.


(** [generate_report] itself writes the report file *)
Lemma C6_counterexample :
  ~ (forall (df : DataFrame) (w : World), files (generate_report df w).1 = files w).
Proof.
  intros H. specialize (H (Pd.frame sample_rows) (mkWorld [] ∅)).
  destruct (report_content (Pd.frame sample_rows)) as [c|e] eqn:E;
    [|vm_compute in E; discriminate].
  rewrite (generate_report_ok _ _ _ E) in H. cbn in H.
  apply (f_equal (fun m => m !! report_path)) in H.
  rewrite lookup_insert_eq, lookup_empty in H. discriminate.
Qed.

Lemma main_files (env : Env) (csv_pattern : string) (w : World) :
  files (main env csv_pattern w).1
  = match pipeline_content env csv_pattern with
    | Some content => <[report_path := content]> (files w)
    | None => files w
    end.
Proof.
  unfold main, pipeline_content.
  rewrite analyze_benchmarks_cases. cbn zeta.
  destruct (glob env csv_pattern) as [|f fs]; [reflexivity|].
  destruct (forallb _ (f :: fs)); [reflexivity|].
  destruct (report_content _) as [content|e] eqn:E.
  - now rewrite (generate_report_ok _ _ _ E).
  - now rewrite (generate_report_raise _ _ _ E).
Qed.

(** C6, as the script has it: the report content is a function of the
    dataset alone.
    When it is produced, [generate_report] itself overwrites
    [benchmark_analysis_report.md] with it and prints the console summary,
    whatever the console and the files held before: two runs on the same
    dataset leave the same content in the file, and a second run changes no
    file.  When an exception is raised while the content is built, nothing
    is written or printed.  For the whole run, the files [main] leaves are
    those it found, with the report file set to a content that depends only
    on what [glob] and [pd.read_csv] return. *)
Theorem C6_content_deterministic_written_by_generate_report :
  (forall (df : DataFrame) (w1 w2 : World),
     match report_content df with
     | Ok content =>
         generate_report df w1
         = (mkWorld (stdout w1 ++ console_lines df)
                    (<[report_path := content]> (files w1)), Ok tt) /\
         files (generate_report df w1).1 !! report_path = Some content /\
         files (generate_report df w2).1 !! report_path = Some content /\
         files (generate_report df (generate_report df w1).1).1
         = files (generate_report df w1).1
     | Raise e => generate_report df w1 = (w1, Raise e)
     end) /\
  (forall (env : Env) (csv_pattern : string) (w : World),
     files (main env csv_pattern w).1
     = match pipeline_content env csv_pattern with
       | Some content => <[report_path := content]> (files w)
       | None => files w
       end).
Proof.
  split.
  - intros df w1 w2.
    destruct (report_content df) as [content|e] eqn:E.
    + rewrite !(generate_report_ok _ _ _ E). cbn.
      rewrite !lookup_insert_eq, insert_insert_eq. auto.
    + now apply generate_report_raise.
  - apply main_files.
Qed.

(** ** Runs without data *)




Example broken_run_console :
  stdout (main broken_env "r/*.csv" (mkWorld [] ∅)).1
  = [ "📊 Found 2 CSV files to analyze";
      "❌ Error loading r/a.csv: No columns to parse from file";
      "❌ Error loading r/b.csv: No columns to parse from file";
      "❌ No valid CSV files loaded" ].
Proof. vm_compute. reflexivity. Qed.

(** ** Datasets without the size ["full"] *)














Example small_rows_report :
  report_lines (Pd.frame small_rows)
  = Ok [ "# 🎯 GRAVIS RAG Benchmark Analysis Report";
         "";
         "## 📊 Executive Summary";
         "";
         "- **Total tests run**: 3";
         "- **Benchmark sizes**: small, medium";
         "- **ef_search values tested**: 32, 64";
         "";
         "## 🚦 Go/No-Go Analysis";
         "";
         "### SMALL Benchmark";
         "";
         "#### Recommended Configurations";
         "";
         "| Objective | ef_search | P95 Latency | Recall@10 | Throughput |";
         "|-----------|-----------|-------------|-----------|------------|";
         "| **Lowest Latency** | 32 | 10.5ms | 0.800 | 5000 |";
         "| **Best Recall** | 32 | 10.5ms | 0.800 | 5000 |";
         "| **Best Throughput** | 32 | 10.5ms | 0.800 | 5000 |";
         "";
         "### MEDIUM Benchmark";
         "";
         "#### Recommended Configurations";
         "";
         "| Objective | ef_search | P95 Latency | Recall@10 | Throughput |";
         "|-----------|-----------|-------------|-----------|------------|";
         "| **Lowest Latency** | 64 | 20.0ms | 0.850 | 3000 |";
         "| **Best Recall** | 64 | 20.0ms | 0.850 | 3000 |";
         "| **Best Throughput** | 64 | 20.0ms | 0.850 | 3000 |";
         "";
         "## 📋 Complete Results";
         "";
         "| Size | Chunks | ef_search | Indexing (min) | Throughput | RAM (GB) | Disk (GB) | P95 Latency (ms) | Recall@10 |";
         "|------|--------|-----------|----------------|------------|----------|-----------|------------------|-----------|";
         "| small | 100,000 | 32 | 12.5 | 5000 | 2.5 | 0.01 | 10.5 | 0.800 |";
         "| medium | 100,000 | 64 | 12.5 | 3000 | 2.5 | 0.10 | 20.0 | 0.850 |";
         "| small | 100,000 | 64 | 12.5 | 4500 | 2.5 | 0.01 | 12.0 | 0.800 |";
         "";
         "## 🔧 Tuning Recommendations";
         "";
         "- **For production**: Use ef_search=64 as baseline, tune based on requirements";
         "- **Low latency**: ef_search=32 (trade-off: -2-5% recall)";
         "- **High quality**: ef_search=128 (trade-off: +20-40% latency)";
         "";
         "---";
         "*Report generated by GRAVIS RAG Benchmark Analysis Tool*" ].
Proof. vm_compute. reflexivity. Qed.


(** ** When the report cannot be built *)

Lemma forallb_false_exists {A} (f : A -> bool) (l : list A) :
  forallb f l = false -> exists x, In x l /\ f x = false.
Proof.
  induction l as [|a l IH]; cbn; [discriminate|].
  destruct (f a) eqn:E; cbn.
  - intros (x & ? & ?)%IH. eauto.
  - intros _. eauto.
Qed.

Lemma idx_extremum_ok_number (arg : list float -> nat) (fill_value : float)
    (name : string) (col : Row.t -> float) (df : DataFrame) (label : nat) :
  Pd.idx_extremum arg fill_value name col df = Ok label ->
  exists lr, lr ∈ df /\ F64.is_nan (col lr.2) = false.
Proof.
  unfold Pd.idx_extremum.
  destruct (map _ df) as [|v vs] eqn:E; [discriminate|]. rewrite <- E.
  destruct (forallb F64.is_nan (map _ df)) eqn:Hall; [discriminate|].
  intros _. apply forallb_false_exists in Hall as (x & Hx & Hnum).
  apply in_map_iff in Hx as (lr & <- & Hlr).
  exists lr. split; [now apply list_elem_of_In|exact Hnum].
Qed.

Lemma select_number_group (col : Row.t -> float) (size : string)
    (rows : list Row.t) :
  (exists lr, lr ∈ Pd.by_size size (Pd.frame rows) /\ F64.is_nan (col lr.2) = false) ->
  group_has_number col size rows.
Proof.
  intros ([l r] & Hin & Hnum).
  apply elem_of_select_frame in Hin as [Hl Hm]. cbn in *.
  exists r. split; [eapply list_elem_of_lookup_2; eauto|].
  split; [now apply String.eqb_eq|exact Hnum].
Qed.

Lemma row_at_idxmax_ok_number col size rows pick :
  row_at_idxmax col (Pd.by_size size (Pd.frame rows)) = Ok pick ->
  group_has_number col size rows.
Proof.
  unfold row_at_idxmax, Pd.idxmax. intros H.
  destruct (Pd.idx_extremum _ _ _ _ _) as [label|] eqn:E; [|discriminate].
  eapply select_number_group, idx_extremum_ok_number; eauto.
Qed.

Lemma row_at_idxmin_ok_number col size rows pick :
  row_at_idxmin col (Pd.by_size size (Pd.frame rows)) = Ok pick ->
  group_has_number col size rows.
Proof.
  unfold row_at_idxmin, Pd.idxmin. intros H.
  destruct (Pd.idx_extremum _ _ _ _ _) as [label|] eqn:E; [|discriminate].
  eapply select_number_group, idx_extremum_ok_number; eauto.
Qed.

Lemma picks_ok_numbers (rows : list Row.t) (size : string) (p : Picks) :
  picks (Pd.by_size size (Pd.frame rows)) = Ok p -> group_has_numbers size rows.
Proof.
  unfold picks. intros H.
  destruct (row_at_idxmin _ _) as [bl|] eqn:El; cbn in H; [|discriminate].
  destruct (row_at_idxmax Row.recall_at_10 _) as [br|] eqn:Er; cbn in H;
    [|discriminate].
  destruct (row_at_idxmax Row.throughput_chunks_per_min _) as [bt|] eqn:Et;
    cbn in H; [|discriminate].
  repeat split.
  - eapply row_at_idxmin_ok_number; eauto.
  - eapply row_at_idxmax_ok_number; eauto.
  - eapply row_at_idxmax_ok_number; eauto.
Qed.

(** X1: when some size present in the dataset has, among its rows, no
    number in one of [p95_latency_ms], [recall_at_10] and
    [throughput_chunks_per_min], the report is not built: [generate_report]
    raises what the [idxmin] or [idxmax] raised, and leaves the console and
    the files as they were. *)
Theorem X1_group_without_numbers_raises
    (rows : list Row.t) (size : string) (w : World) :
  size ∈ unique_sizes (Pd.frame rows) ->
  ~ group_has_numbers size rows ->
  exists e,
    report_lines (Pd.frame rows) = Raise e /\
    generate_report (Pd.frame rows) w = (w, Raise e).
Proof.
  intros Hin Hnot.
  destruct (report_lines (Pd.frame rows)) as [report|e] eqn:E.
  - exfalso. apply Hnot. unfold report_lines in E.
    destruct (size_sections _ _) as [secs|] eqn:Es; cbn in E; [|discriminate].
    destruct (size_sections_picks _ _ _ Es size Hin) as [p Hp].
    eapply picks_ok_numbers; eauto.
  - exists e. split; [reflexivity|].
    apply generate_report_raise. unfold report_content. now rewrite E.
Qed.

Lemma X1_witness :
  exists e,
    report_lines (Pd.frame [with_source_file "a.csv" missing_row]) = Raise e /\
    generate_report (Pd.frame [with_source_file "a.csv" missing_row]) (mkWorld [] ∅)
    = (mkWorld [] ∅, Raise e).
Proof.
  apply (X1_group_without_numbers_raises
           [with_source_file "a.csv" missing_row] "full" (mkWorld [] ∅)).
  - apply elem_of_unique_sizes. eexists. split; [left|reflexivity].
  - intros (_ & (r & Hr & _ & Hnum) & _).
    apply list_elem_of_In in Hr. cbn in Hr. destruct Hr as [<-|[]].
    discriminate.
Defined.

(** a group with a number in two columns only is enough to stop the report *)
Example report_lines_missing_recall :
  report_lines (Pd.frame [with_source_file "a.csv" missing_row])
  = Raise (Exception "Encountered all NA values").
Proof. vm_compute. reflexivity. Qed.

(** ** The exit status of [main] *)

(** X2: [main] ends with status 1 exactly when rows were loaded and building
    the report content raised; it has then printed the loading messages and
    the error line and has written no file.  In every other case the status
    is 0. *)
Theorem X2_main_exit_status (env : Env) (csv_pattern : string) (w : World) :
  match pipeline_error env csv_pattern with
  | Some e =>
      main env csv_pattern w
      = (mkWorld (stdout w
                  ++ found_message (glob env csv_pattern)
                     :: map (load_message env) (glob env csv_pattern)
                  ++ [error_message e])
                 (files w), 1)
  | None => (main env csv_pattern w).2 = 0
  end.
Proof.
  unfold pipeline_error, main.
  rewrite analyze_benchmarks_cases. cbn zeta.
  destruct (glob env csv_pattern) as [|f fs]; [reflexivity|].
  destruct (forallb _ (f :: fs)); [reflexivity|].
  destruct (report_content _) as [content|e] eqn:E.
  - now rewrite (generate_report_ok _ _ _ E).
  - rewrite (generate_report_raise _ _ _ E). rewrite print_printed.
    cbn [fst]. rewrite printed_printed. reflexivity.
Qed.

Example main_missing_recall :
  main missing_env "r/*.csv" (mkWorld [] ∅)
  = (mkWorld [ "📊 Found 1 CSV files to analyze";
               "✅ Loaded r/a.csv: 1 rows";
               "❌ Error during analysis: Encountered all NA values" ] ∅, 1).
Proof. vm_compute. reflexivity. Qed.

(** ** The sizes of a dataset and their groups *)

Lemma unique_acc_NoDup {A} `{EqDecision A} (seen l : list A) :
  NoDup (Pd.unique_acc seen l).
Proof.
  revert seen. induction l as [|y l IH]; intros seen; cbn; [constructor|].
  destruct (decide (y ∈ seen)); [apply IH|].
  constructor; [|apply IH].
  rewrite elem_of_unique_acc. intros [_ Hy]. apply Hy. left.
Qed.

Lemma unique_acc_snoc {A} `{EqDecision A} (seen l : list A) (x : A) :
  Pd.unique_acc seen (l ++ [x])
  = Pd.unique_acc seen l ++ (if decide (x ∈ seen ++ l) then [] else [x]).
Proof.
  revert seen. induction l as [|y l IH]; intros seen; cbn.
  - rewrite app_nil_r. now destruct (decide (x ∈ seen)).
  - destruct (decide (y ∈ seen)) as [Hy|Hy].
    + rewrite IH. f_equal. apply decide_ext.
      rewrite !elem_of_app, elem_of_cons. split.
      * intros [?|?]; auto.
      * intros [?|[E|?]]; auto. subst. auto.
    + rewrite IH. cbn. do 2 f_equal. apply decide_ext.
      repeat (rewrite elem_of_cons || rewrite elem_of_app). tauto.
Qed.

Lemma unique_snoc {A} `{EqDecision A} (l : list A) (x : A) :
  Pd.unique (l ++ [x]) = Pd.unique l ++ (if decide (x ∈ l) then [] else [x]).
Proof. unfold Pd.unique. now rewrite unique_acc_snoc. Qed.

Lemma frame_column {B} (f : Row.t -> B) (rows : list Row.t) :
  map (fun lr => f lr.2) (Pd.frame rows) = map f rows.
Proof.
  apply list_eq. intros k.
  destruct (map f rows !! k) as [b|] eqn:E.
  - apply lookup_map_Some in E as (r & Hr & ->).
    apply lookup_map_Some. exists (k, r). split; [|reflexivity].
    apply frame_lookup. auto.
  - destruct (map _ (Pd.frame rows) !! k) as [b|] eqn:E'; [|reflexivity].
    apply lookup_map_Some in E' as ([l r] & [_ Hr]%frame_lookup & ->).
    cbn in *. assert (map f rows !! k = Some (f r))
      by (apply lookup_map_Some; eauto).
    congruence.
Qed.

(** X3: the sizes the report iterates over hold every size of the dataset
    once, in the order of first appearance: appending a row adds its size at
    the end when the size is new, and changes nothing otherwise. *)
Theorem X3_unique_sizes_first_seen (rows : list Row.t) (r : Row.t) :
  NoDup (unique_sizes (Pd.frame rows)) /\
  (forall size, size ∈ unique_sizes (Pd.frame rows) <->
     exists r', r' ∈ rows /\ Row.size r' = size) /\
  unique_sizes (Pd.frame (rows ++ [r]))
  = unique_sizes (Pd.frame rows)
    ++ (if decide (Row.size r ∈ unique_sizes (Pd.frame rows)) then []
        else [Row.size r]).
Proof.
  split; [apply unique_acc_NoDup|]. split; [apply elem_of_unique_sizes|].
  unfold unique_sizes. rewrite !frame_column, map_app. cbn [map].
  rewrite unique_snoc. f_equal. apply decide_ext.
  now rewrite elem_of_unique.
Qed.

Lemma sum_list_pointwise {A} (f g : A -> nat) (l : list A) :
  sum_list (map (fun a => f a + g a)%nat l)
  = (sum_list (map f l) + sum_list (map g l))%nat.
Proof. induction l as [|a l IH]; cbn; [reflexivity|]. rewrite IH. lia. Qed.

Lemma sum_list_zero {A} (l : list A) : sum_list (map (fun _ => O) l) = O.
Proof. induction l as [|a l IH]; cbn; auto. Qed.

Lemma sum_indicator (sizes : list string) (x : string) :
  NoDup sizes -> x ∈ sizes ->
  sum_list (map (fun s => if String.eqb x s then 1 else 0)%nat sizes) = 1%nat.
Proof.
  induction 1 as [|s sizes Hs Hnd IH]; intros Hin; [inversion Hin|].
  cbn. destruct (String.eqb_spec x s) as [->|Hne].
  - assert (Hz : sum_list (map (fun s' => if String.eqb s s' then 1 else 0)%nat sizes) = O).
    { clear IH Hin Hnd. induction sizes as [|s' sizes IH]; [reflexivity|].
      cbn. destruct (String.eqb_spec s s') as [->|_].
      - exfalso. apply Hs. left.
      - apply IH. intros H. apply Hs. now right. }
    rewrite Hz. reflexivity.
  - apply elem_of_cons in Hin as [?|Hin]; [congruence|]. now rewrite IH.
Qed.

Lemma groups_partition (sizes : list string) (df : DataFrame) :
  NoDup sizes ->
  (forall lr, lr ∈ df -> Row.size lr.2 ∈ sizes) ->
  length df = sum_list (map (fun s => length (Pd.by_size s df)) sizes).
Proof.
  intros Hnd. induction df as [|lr df IH]; intros Hall.
  - cbn. now rewrite sum_list_zero.
  - assert (Hstep : forall s, length (Pd.by_size s (lr :: df))
        = ((if String.eqb (Row.size lr.2) s then 1 else 0)
           + length (Pd.by_size s df))%nat).
    { intros s. unfold Pd.by_size, Pd.select. cbn.
      now destruct (String.eqb (Row.size lr.2) s). }
    rewrite (map_ext _ _ Hstep), sum_list_pointwise, sum_indicator;
      [|assumption|apply Hall; left].
    cbn. f_equal. apply IH. intros lr' Hin. apply Hall. now right.
Qed.

(** X4: the groups the report builds, one per size, partition the dataset:
    a row is in the group of a size exactly when it is a row of the dataset
    with that size (under its position as label), and the lengths of the
    groups add up to the number of rows ("Total tests run"). *)
Theorem X4_size_groups_partition (rows : list Row.t) :
  (forall (i : nat) (r : Row.t) (size : string),
     (i, r) ∈ Pd.by_size size (Pd.frame rows) <->
     rows !! i = Some r /\ Row.size r = size) /\
  length rows
  = sum_list (map (fun size => length (Pd.by_size size (Pd.frame rows)))
                  (unique_sizes (Pd.frame rows))).
Proof.
  split.
  - intros i r size. unfold Pd.by_size. rewrite elem_of_select_frame. cbn.
    now rewrite String.eqb_eq.
  - rewrite <- groups_partition.
    + unfold Pd.frame. now rewrite length_imap.
    + apply unique_acc_NoDup.
    + intros [l r] Hin. apply elem_of_unique_sizes. exists r. split; [|reflexivity].
      apply list_elem_of_lookup in Hin as [k [_ Hk]%frame_lookup].
      eapply list_elem_of_lookup_2; eauto.
Qed.

(** ** The verdict: order and missing values *)

Lemma leb_trans (x y z : float) :
  (x <=? y)%float = true -> (y <=? z)%float = true -> (x <=? z)%float = true.
Proof.
  intros H1 H2.
  destruct (F64.is_nan x) eqn:Hx; [now rewrite F64Facts.leb_nan_l in H1|].
  destruct (F64.is_nan y) eqn:Hy; [now rewrite F64Facts.leb_nan_r in H1|].
  destruct (F64.is_nan z) eqn:Hz; [now rewrite F64Facts.leb_nan_r in H2|].
  apply (F64Facts.leb_key _ _ Hx Hy) in H1.
  apply (F64Facts.leb_key _ _ Hy Hz) in H2.
  apply (F64Facts.leb_key _ _ Hx Hz). eapply F64Facts.lex_le_trans; eauto.
Qed.

Lemma status_GO_all_ok (e : Evaluation) : status e = GO <-> all_ok e = true.
Proof.
  unfold status. pose proof GO_neq_NO_GO.
  destruct (all_ok e); split; congruence.
Qed.

Lemma all_ok_passes (e : Evaluation) :
  all_ok e = true <-> forall d, passes d e = true.
Proof.
  unfold all_ok. cbn [forallb id]. split.
  - intros H d.
    destruct (throughput_ok e) eqn:E1, (latency_ok e) eqn:E2,
      (recall_ok e) eqn:E3, (disk_ok e) eqn:E4; try discriminate.
    destruct d; assumption.
  - intros H.
    pose proof (H Throughput). pose proof (H Latency).
    pose proof (H Recall). pose proof (H Disk). cbn in *.
    repeat match goal with E : _ = true |- _ => rewrite E; clear E end.
    reflexivity.
Qed.

(** X5: the verdict is monotone.  A row that is no worse than a GO row in
    each of the four dimensions (throughput and recall not lower, latency
    and disk usage not higher) is GO as well. *)
Theorem X5_verdict_monotone (r r' : Row.t) :
  status (evaluate r) = GO ->
  (forall d, no_worse d (value d r) (value d r') = true) ->
  status (evaluate r') = GO.
Proof.
  rewrite !status_GO_all_ok, !all_ok_passes. intros Hgo Hbetter d.
  specialize (Hgo d). specialize (Hbetter d).
  rewrite passes_meets in *.
  destruct d; cbn in *; eapply leb_trans; eauto.
Qed.

Lemma X5_witness :
  status (evaluate (sample "full" 64 1100 90 0.9 0.5)) = GO /\
  status (evaluate (sample "full" 128 1300 85 0.95 0.4)) = GO.
Proof.
  assert (H : status (evaluate (sample "full" 64 1100 90 0.9 0.5)) = GO)
    by reflexivity.
  split; [exact H|].
  apply (X5_verdict_monotone (sample "full" 64 1100 90 0.9 0.5)
           (sample "full" 128 1300 85 0.95 0.4) H).
  intros d. destruct d; reflexivity.
Defined.

(** X6: a missing value never passes.  When one of the four evaluated
    fields of a row is NaN (an empty cell of the CSV), the boolean of that
    dimension is false and the status is NO-GO, whatever the other fields
    hold; nothing is raised. *)
Theorem X6_missing_value_is_no_go (r : Row.t) (d : Dimension) :
  F64.is_nan (value d r) = true ->
  passes d (evaluate r) = false /\ status (evaluate r) = NO_GO.
Proof.
  intros Hnan.
  assert (Hp : passes d (evaluate r) = false).
  { rewrite passes_meets.
    destruct d; cbn;
      first [now apply F64Facts.leb_nan_r | now apply F64Facts.leb_nan_l]. }
  split; [exact Hp|].
  unfold status. destruct (all_ok (evaluate r)) eqn:E; [|reflexivity].
  rewrite all_ok_passes in E. rewrite (E d) in Hp. discriminate.
Qed.

Lemma X6_witness :
  passes Disk (evaluate (sample "full" 64 1100 90 0.9 nan)) = false /\
  status (evaluate (sample "full" 64 1100 90 0.9 nan)) = NO_GO.
Proof.
  apply (X6_missing_value_is_no_go (sample "full" 64 1100 90 0.9 nan) Disk).
  reflexivity.
Defined.

(** ** Missing values are skipped *)

Section Filled.
Variable better : float -> float -> bool.
Variable fill_value : float.
Variable name : string.
Hypothesis fill_number : F64.is_nan fill_value = false.
Hypothesis better_asym :
  forall a b, better a b = true -> better b a = false.
Hypothesis better_trans :
  forall a b c,
    F64.is_nan a = false -> F64.is_nan b = false -> F64.is_nan c = false ->
    better a b = false -> better c b = true -> better c a = true.

(** the row found holds a best value among the filled values *)
Lemma idx_extremum_filled (col : Row.t -> float) (df : DataFrame) :
  (exists lr, lr ∈ df /\ F64.is_nan (col lr.2) = false) ->
  exists k label pick,
    Pd.idx_extremum (Pd.first_best better) fill_value name col df = Ok label /\
    df !! k = Some (label, pick) /\
    forall lr, lr ∈ df ->
      better (Pd.fill fill_value (col lr.2)) (Pd.fill fill_value (col pick)) = false.
Proof.
  intros (lr0 & Hin0 & Hnum0).
  unfold Pd.idx_extremum.
  set (vals := map (fun lr => col lr.2) df).
  set (filled := map (Pd.fill fill_value) vals).
  assert (Hne : filled <> []).
  { subst filled vals. destruct df; [inversion Hin0|discriminate]. }
  assert (HD : Forall (fun x => F64.is_nan x = false) filled).
  { subst filled. apply Forall_forall. intros x Hx.
    apply list_elem_of_In, in_map_iff in Hx as (y & <- & _).
    now apply fill_is_number. }
  destruct (first_best_spec better _ better_asym better_trans filled Hne HD)
    as (vk & Hk & Hmax & _).
  set (k := Pd.first_best better filled) in *.
  assert (Hget : forall j v, filled !! j = Some v <->
            exists lr, df !! j = Some lr /\ v = Pd.fill fill_value (col lr.2)).
  { intros j v. subst filled vals. rewrite lookup_map_Some. split.
    - intros (x & (lr & Hlr & ->)%lookup_map_Some & ->). eauto.
    - intros (lr & Hlr & ->). eexists. split; [|reflexivity].
      apply lookup_map_Some. eauto. }
  apply Hget in Hk as ([label pick] & Hdf & ->). cbn in *.
  exists k, label, pick.
  assert (Hall : forallb F64.is_nan vals = false).
  { apply not_true_is_false. intros Hall.
    rewrite forallb_forall in Hall.
    assert (Hv : In (col lr0.2) vals).
    { subst vals. apply in_map_iff. exists lr0. split; [reflexivity|].
      now apply list_elem_of_In. }
    apply Hall in Hv. congruence. }
  rewrite Hall. fold filled. fold k. rewrite Hdf.
  destruct vals eqn:Evals; [now cbn in Hne|].
  split; [reflexivity|]. split; [reflexivity|].
  intros lr [j Hj]%list_elem_of_lookup.
  apply (Hmax j). apply Hget. eauto.
Qed.

Lemma row_at_extremum_filled (col : Row.t -> float) (size : string)
    (rows : list Row.t) :
  group_has_number col size rows ->
  exists pick,
    (label ← Pd.idx_extremum (Pd.first_best better) fill_value name col
               (Pd.by_size size (Pd.frame rows));
     Pd.loc (Pd.by_size size (Pd.frame rows)) label) = Ok pick /\
    forall r, r ∈ rows -> Row.size r = size ->
      better (Pd.fill fill_value (col r)) (Pd.fill fill_value (col pick)) = false.
Proof.
  intros (r0 & Hin0 & Hs0 & Hnum0).
  set (sdf := Pd.by_size size (Pd.frame rows)).
  assert (Hinc : increasing sdf)
    by apply select_increasing, frame_increasing.
  apply list_elem_of_lookup in Hin0 as [i0 Hi0].
  destruct (idx_extremum_filled col sdf) as (k & label & pick & Hidx & Hk & Hmax).
  { exists (i0, r0). split; [|assumption].
    apply elem_of_select_frame. split; [assumption|]. now apply String.eqb_eq. }
  exists pick. rewrite Hidx. cbn.
  split; [eapply loc_increasing; eauto|].
  intros r [j Hj]%list_elem_of_lookup Hs.
  apply (Hmax (j, r)). apply elem_of_select_frame.
  split; [assumption|]. now apply String.eqb_eq.
Qed.
End Filled.

Lemma finite_number (v : float) : finite v = true -> F64.is_nan v = false.
Proof.
  unfold finite. intros [H _]%andb_true_iff.
  destruct (F64.is_nan v) eqn:E; [|reflexivity].
  now rewrite (F64Facts.ltb_nan_r _ _ E) in H.
Qed.

Lemma group_finite_number col size rows :
  group_has_finite col size rows -> group_has_number col size rows.
Proof.
  intros (r & ? & ? & ?%finite_number). exists r. auto.
Qed.

Lemma idxmax_skips_missing col size rows :
  group_has_finite col size rows ->
  exists pick,
    row_at_idxmax col (Pd.by_size size (Pd.frame rows)) = Ok pick /\
    F64.is_nan (col pick) = false /\
    forall r, r ∈ rows -> Row.size r = size -> F64.is_nan (col r) = false ->
      (col r <=? col pick)%float = true.
Proof.
  intros Hfin. pose proof (group_finite_number _ _ _ Hfin) as Hnum.
  destruct (row_at_extremum_filled Pd.gt neg_infinity "argmax") with
    (col := col) (size := size) (rows := rows) as (pick & Hpick & Hmax);
    try assumption; unfold Pd.gt in *.
  - reflexivity.
  - intros a b. apply F64Facts.ltb_asym.
  - intros a b c Ha Hb Hc. now apply F64Facts.le_lt_trans.
  - exists pick. split; [exact Hpick|].
    destruct Hfin as (r0 & Hin0 & Hs0 & Hf0).
    pose proof (finite_number _ Hf0) as Hn0.
    assert (Hp : F64.is_nan (col pick) = false).
    { destruct (F64.is_nan (col pick)) eqn:E; [|reflexivity].
      specialize (Hmax r0 Hin0 Hs0). unfold Pd.fill in Hmax.
      rewrite E, Hn0 in Hmax.
      apply andb_true_iff in Hf0 as [Hf0 _]. congruence. }
    split; [exact Hp|].
    intros r Hin Hs Hn. specialize (Hmax r Hin Hs).
    unfold Pd.fill in Hmax. rewrite Hn, Hp in Hmax.
    now apply (F64Facts.leb_ltb_false _ _ Hn Hp).
Qed.

Lemma idxmin_skips_missing col size rows :
  group_has_finite col size rows ->
  exists pick,
    row_at_idxmin col (Pd.by_size size (Pd.frame rows)) = Ok pick /\
    F64.is_nan (col pick) = false /\
    forall r, r ∈ rows -> Row.size r = size -> F64.is_nan (col r) = false ->
      (col pick <=? col r)%float = true.
Proof.
  intros Hfin. pose proof (group_finite_number _ _ _ Hfin) as Hnum.
  destruct (row_at_extremum_filled Pd.lt infinity "argmin") with
    (col := col) (size := size) (rows := rows) as (pick & Hpick & Hmin);
    try assumption; unfold Pd.lt in *.
  - reflexivity.
  - intros a b. apply F64Facts.ltb_asym.
  - intros a b c Ha Hb Hc H1 H2. now apply (F64Facts.lt_le_trans c b a).
  - exists pick. split; [exact Hpick|].
    destruct Hfin as (r0 & Hin0 & Hs0 & Hf0).
    pose proof (finite_number _ Hf0) as Hn0.
    assert (Hp : F64.is_nan (col pick) = false).
    { destruct (F64.is_nan (col pick)) eqn:E; [|reflexivity].
      specialize (Hmin r0 Hin0 Hs0). unfold Pd.fill in Hmin.
      rewrite E, Hn0 in Hmin.
      apply andb_true_iff in Hf0 as [_ Hf0]. congruence. }
    split; [exact Hp|].
    intros r Hin Hs Hn. specialize (Hmin r Hin Hs).
    unfold Pd.fill in Hmin. rewrite Hn, Hp in Hmin.
    now apply (F64Facts.leb_ltb_false _ _ Hp Hn).
Qed.

(** X7: rows with a missing metric are never recommended when a real value
    exists.  For a size whose group holds a finite value in each of the three
    metric columns, the three picks are produced, the metric of each pick is
    a number, and it bounds every number of its column in the group: the
    lowest latency from below, the best recall and the best throughput from
    above. *)
Theorem X7_picks_skip_missing_values (rows : list Row.t) (size : string) :
  group_has_finite Row.p95_latency_ms size rows ->
  group_has_finite Row.recall_at_10 size rows ->
  group_has_finite Row.throughput_chunks_per_min size rows ->
  exists p,
    picks (Pd.by_size size (Pd.frame rows)) = Ok p /\
    (F64.is_nan (Row.p95_latency_ms (best_latency p)) = false /\
     forall r, r ∈ rows -> Row.size r = size ->
       F64.is_nan (Row.p95_latency_ms r) = false ->
       (Row.p95_latency_ms (best_latency p) <=? Row.p95_latency_ms r)%float = true) /\
    (F64.is_nan (Row.recall_at_10 (best_recall p)) = false /\
     forall r, r ∈ rows -> Row.size r = size ->
       F64.is_nan (Row.recall_at_10 r) = false ->
       (Row.recall_at_10 r <=? Row.recall_at_10 (best_recall p))%float = true) /\
    (F64.is_nan (Row.throughput_chunks_per_min (best_throughput p)) = false /\
     forall r, r ∈ rows -> Row.size r = size ->
       F64.is_nan (Row.throughput_chunks_per_min r) = false ->
       (Row.throughput_chunks_per_min r
        <=? Row.throughput_chunks_per_min (best_throughput p))%float = true).
Proof.
  intros Hl Hr Ht.
  destruct (idxmin_skips_missing _ _ _ Hl) as (bl & El & Pl).
  destruct (idxmax_skips_missing _ _ _ Hr) as (br & Er & Pr).
  destruct (idxmax_skips_missing _ _ _ Ht) as (bt & Et & Pt).
  exists (mkPicks bl br bt). unfold picks.
  rewrite El. cbn. rewrite Er. cbn. rewrite Et. cbn. auto.
Qed.

Lemma gappy_finite (col : Row.t -> float) :
  finite (col (sample "full" 32 1200 80 0.8 0.5)) = true ->
  group_has_finite col "full" gappy_rows.
Proof.
  intros H. exists (sample "full" 32 1200 80 0.8 0.5).
  split; [|split; [reflexivity|exact H]].
  apply list_elem_of_In. cbn. auto.
Qed.

Lemma X7_witness :
  exists p,
    picks (Pd.by_size "full" (Pd.frame gappy_rows)) = Ok p /\
    (F64.is_nan (Row.p95_latency_ms (best_latency p)) = false /\
     forall r, r ∈ gappy_rows -> Row.size r = "full" ->
       F64.is_nan (Row.p95_latency_ms r) = false ->
       (Row.p95_latency_ms (best_latency p) <=? Row.p95_latency_ms r)%float = true) /\
    (F64.is_nan (Row.recall_at_10 (best_recall p)) = false /\
     forall r, r ∈ gappy_rows -> Row.size r = "full" ->
       F64.is_nan (Row.recall_at_10 r) = false ->
       (Row.recall_at_10 r <=? Row.recall_at_10 (best_recall p))%float = true) /\
    (F64.is_nan (Row.throughput_chunks_per_min (best_throughput p)) = false /\
     forall r, r ∈ gappy_rows -> Row.size r = "full" ->
       F64.is_nan (Row.throughput_chunks_per_min r) = false ->
       (Row.throughput_chunks_per_min r
        <=? Row.throughput_chunks_per_min (best_throughput p))%float = true).
Proof.
  apply (X7_picks_skip_missing_values gappy_rows "full");
    apply gappy_finite; reflexivity.
Defined.

Example picks_gappy :
  picks (Pd.by_size "full" (Pd.frame gappy_rows))
  = Ok (mkPicks (sample "full" 32 1200 80 0.8 0.5)
                (sample "full" 64 1100 nan 0.9 0.5)
                (sample "full" 32 1200 80 0.8 0.5)).
Proof. vm_compute. reflexivity. Qed.

(** ** The combined frame *)

Lemma frame_labels (rows : list Row.t) :
  map fst (Pd.frame rows) = seq 0 (length rows).
Proof.
  apply list_eq. intros k.
  destruct (rows !! k) as [r|] eqn:E.
  - rewrite lookup_seq_lt by (eapply lookup_lt_Some; eauto).
    apply lookup_map_Some. exists (k, r). split; [|reflexivity].
    apply frame_lookup. auto.
  - apply lookup_ge_None in E.
    rewrite lookup_seq_ge by lia.
    apply lookup_ge_None. rewrite length_map. unfold Pd.frame.
    rewrite length_imap. lia.
Qed.

Lemma length_rows_of (env : Env) (f : string) :
  length (rows_of env f) = row_count env f.
Proof.
  unfold rows_of, row_count. destruct (read_csv env f); [|reflexivity].
  apply length_map.
Qed.

Lemma length_flat_map_rows (env : Env) (csv_files : list string) :
  length (flat_map (rows_of env) csv_files)
  = sum_list (map (row_count env) csv_files).
Proof.
  induction csv_files as [|f fs IH]; [reflexivity|].
  cbn. now rewrite length_app, length_rows_of, IH.
Qed.

(** X8: whatever the paths hold, the loop over them raises nothing and writes
    no file, and the frame [pd.concat(dfs, ignore_index=True)] built from its
    result is labelled [0, 1, ..., n-1] without gap or repeat, where [n] is
    the sum of the row counts of the readable paths; this [n] is the "Total
    tests run" of the report. *)
Theorem X8_combined_frame_labels_and_size
    (env : Env) (csv_files : list string) (w : World) :
  exists (w' : World) (dfs : list (list Row.t)),
    load env csv_files w = (w', Ok dfs) /\
    files w' = files w /\
    let combined_df := Pd.concat_ignore_index dfs in
    let n := sum_list (map (row_count env) csv_files) in
    length combined_df = n /\
    map fst combined_df = seq 0 n /\
    summary_lines combined_df !! 4%nat
    = Some ("- **Total tests run**: " +:+ Py.str_nat n).
Proof.
  rewrite load_spec. eexists _, _. split; [reflexivity|]. split; [reflexivity|].
  cbn zeta. unfold Pd.concat_ignore_index. rewrite concat_loaded.
  assert (Hlen : length (Pd.frame (flat_map (rows_of env) csv_files))
                 = sum_list (map (row_count env) csv_files)).
  { unfold Pd.frame. now rewrite length_imap, length_flat_map_rows. }
  split; [exact Hlen|]. split.
  - now rewrite frame_labels, length_flat_map_rows.
  - unfold summary_lines. cbn [lookup list_lookup]. now rewrite Hlen.
Qed.

(** ** The geometry of the icons *)

Lemma all_from_spec (fuel : nat) (a : Z) (P : Z -> bool) :
  all_from fuel a P = true ->
  forall z, a <= z < a + Z.of_nat fuel -> P z = true.
Proof.
  revert a. induction fuel as [|fuel IH]; intros a H z Hz; [lia|].
  cbn [all_from] in H. apply andb_true_iff in H as [Ha Hrest].
  destruct (Z.eq_dec z a) as [->|Hne]; [exact Ha|].
  apply (IH (a + 1) Hrest). lia.
Qed.

Lemma div100_exact_upto :
  all_from (Z.to_nat 102401) 0 div100_exact = true.
Proof. vm_compute. reflexivity. Qed.

Lemma logo_size_floor (size padding_percent : Z) :
  0 <= size <= 1024 -> 0 <= padding_percent <= 100 ->
  Icon.logo_size size padding_percent
  = Ok (size * (100 - padding_percent) / 100).
Proof.
  intros Hs Hp.
  assert (Ha : 0 <= size * (100 - padding_percent) < 0 + Z.of_nat (Z.to_nat 102401))
    by (rewrite Z2Nat.id by lia; nia).
  pose proof (all_from_spec _ _ _ div100_exact_upto _ Ha) as H.
  unfold div100_exact in H. unfold Icon.logo_size.
  destruct (Icon.int_of_float _) as [q|e]; [|discriminate].
  apply Z.eqb_eq in H. now subst.
Qed.

(** X9: for an icon side of at most 1024 and a padding between 0 and 100
    percent: when [size * (100 - padding)] is below 100 the logo would have
    no pixel and [create_icon_with_padding] raises, at the [resize];
    otherwise it returns an icon of side [size] whose logo side is the
    integer quotient [size * (100 - padding) / 100], of at least one pixel,
    pasted inside the icon: the offset is not negative, the logo ends within
    the icon, and the margin after the logo exceeds the margin before it by
    0 or 1 pixel. *)
Theorem X9_logo_inside_icon_and_centred (size padding_percent : Z) :
  0 <= size <= 1024 -> 0 <= padding_percent <= 100 ->
  if 100 <=? size * (100 - padding_percent) then
    exists icon,
      Icon.create_icon_with_padding size padding_percent = Ok icon /\
      Icon.side icon = size /\
      Icon.logo_side icon = size * (100 - padding_percent) / 100 /\
      1 <= Icon.logo_side icon <= size /\
      0 <= Icon.offset icon /\
      Icon.offset icon + Icon.logo_side icon <= size /\
      0 <= (size - Icon.logo_side icon - Icon.offset icon) - Icon.offset icon <= 1
  else
    Icon.create_icon_with_padding size padding_percent
    = Raise (Exception "height and width must be > 0").
Proof.
  intros Hs Hp. unfold Icon.create_icon_with_padding, Icon.new_image.
  destruct (Z.ltb_spec size 0) as [|_]; [lia|]. cbn.
  rewrite (logo_size_floor _ _ Hs Hp). cbn. unfold Icon.resize.
  set (ls := size * (100 - padding_percent) / 100).
  assert (Hls : 0 <= ls <= size).
  { subst ls. split.
    - apply Z.div_pos; nia.
    - apply Z.div_le_upper_bound; nia. }
  destruct (Z.leb_spec 100 (size * (100 - padding_percent))) as [Hge|Hlt].
  - assert (H1 : 1 <= ls) by (subst ls; apply Z.div_le_lower_bound; lia).
    destruct (Z.ltb_spec ls 1) as [|_]; [lia|]. cbn.
    eexists. split; [reflexivity|]. cbn.
    pose proof (Z.div_mod (size - ls) 2 ltac:(lia)).
    pose proof (Z.mod_pos_bound (size - ls) 2 ltac:(lia)).
    repeat split; try lia.
  - assert (H0 : ls = 0) by (subst ls; apply Z.div_small; nia).
    rewrite H0. reflexivity.
Qed.

Lemma X9_witness :
  (exists icon,
     Icon.create_icon_with_padding 16 45 = Ok icon /\
     Icon.side icon = 16 /\
     Icon.logo_side icon = 16 * (100 - 45) / 100 /\
     1 <= Icon.logo_side icon <= 16 /\
     0 <= Icon.offset icon /\
     Icon.offset icon + Icon.logo_side icon <= 16 /\
     0 <= (16 - Icon.logo_side icon - Icon.offset icon) - Icon.offset icon <= 1) /\
  Icon.create_icon_with_padding 512 100
  = Raise (Exception "height and width must be > 0").
Proof.
  split.
  - apply (X9_logo_inside_icon_and_centred 16 45); lia.
  - apply (X9_logo_inside_icon_and_centred 512 100); lia.
Defined.

(** a side or a padding that leaves the logo no pixel, and a negative side *)
Example create_icon_refused :
  map (fun c => Icon.create_icon_with_padding c.1 c.2)
    [ (512, 100); (1, 50); (0, 20); (-1, 20) ]
  = [ Raise (Exception "height and width must be > 0");
      Raise (Exception "height and width must be > 0");
      Raise (Exception "height and width must be > 0");
      Raise (Exception "Width and height must be >= 0") ].
Proof. vm_compute. reflexivity. Qed.

(** the icons of the script's tables: the smallest logo has 8 pixels *)
Example configurations_icons :
  map (fun c => Icon.create_icon_with_padding c.1 c.2) Icon.configurations
  = map Ok
      [ Icon.mk 32 19 6; Icon.mk 128 76 26; Icon.mk 256 153 51;
        Icon.mk 512 307 102;
        Icon.mk 16 8 4; Icon.mk 32 17 7; Icon.mk 32 19 6; Icon.mk 64 38 13;
        Icon.mk 128 79 24; Icon.mk 256 158 49; Icon.mk 256 166 45;
        Icon.mk 512 332 90; Icon.mk 512 348 82; Icon.mk 1024 696 164;
        Icon.mk 1024 901 61;
        Icon.mk 16 8 4; Icon.mk 32 17 7; Icon.mk 48 28 10; Icon.mk 64 38 13;
        Icon.mk 128 83 22; Icon.mk 256 166 45 ].
Proof. vm_compute. reflexivity. Qed.

(** X10: within the same bounds, more padding never gives a larger logo; a
    padding of 0 percent makes the logo fill the icon and a padding of 100
    percent leaves a logo of side 0; the logo has at least one pixel exactly
    when [size * (100 - padding)] reaches 100. *)
Theorem X10_logo_size_against_padding (size p p' : Z) :
  0 <= size <= 1024 -> 0 <= p -> p <= p' -> p' <= 100 ->
  exists ls ls',
    Icon.logo_size size p = Ok ls /\ Icon.logo_size size p' = Ok ls' /\
    ls' <= ls /\
    (1 <= ls <-> 100 <= size * (100 - p)) /\
    Icon.logo_size size 0 = Ok size /\
    Icon.logo_size size 100 = Ok 0.
Proof.
  intros Hs Hp Hpp Hp'.
  rewrite !logo_size_floor by lia.
  eexists _, _. split; [reflexivity|]. split; [reflexivity|].
  split; [apply Z.div_le_mono; nia|].
  split.
  - split; intros H.
    + destruct (Z_lt_le_dec (size * (100 - p)) 100) as [Hlt|]; [|assumption].
      rewrite Z.div_small in H by nia. lia.
    + apply Z.div_le_lower_bound; lia.
  - split; f_equal.
    + replace (size * (100 - 0)) with (size * 100) by lia. now apply Z.div_mul.
    + now replace (size * (100 - 100)) with 0 by lia.
Qed.

Lemma X10_witness :
  exists ls ls',
    Icon.logo_size 512 32 = Ok ls /\ Icon.logo_size 512 40 = Ok ls' /\
    ls' <= ls /\
    (1 <= ls <-> 100 <= 512 * (100 - 32)) /\
    Icon.logo_size 512 0 = Ok 512 /\
    Icon.logo_size 512 100 = Ok 0.
Proof.
  apply (X10_logo_size_against_padding 512 32 40); lia.
Defined.

(** ** A size is analysed on its own rows *)

Lemma select_rows (mask : Row.t -> bool) (df : DataFrame) :
  map snd (Pd.select mask df) = List.filter mask (map snd df).
Proof.
  unfold Pd.select. induction df as [|lr df IH]; [reflexivity|].
  cbn. destruct (mask lr.2); cbn; now rewrite IH.
Qed.

Lemma frame_rows (rows : list Row.t) : map snd (Pd.frame rows) = rows.
Proof.
  rewrite <- (map_id rows) at 2. exact (frame_column id rows).
Qed.

Lemma lookup_same_rows (df df' : DataFrame) (k : nat) :
  map snd df = map snd df' ->
  match df !! k, df' !! k with
  | Some lr, Some lr' => lr.2 = lr'.2
  | None, None => True
  | _, _ => False
  end.
Proof.
  intros Heq.
  assert (H : map snd df !! k = map snd df' !! k) by now rewrite Heq.
  destruct (df !! k) as [lr|] eqn:E, (df' !! k) as [lr'|] eqn:E'.
  - assert (H1 : map snd df !! k = Some lr.2)
      by (apply lookup_map_Some; eauto).
    assert (H2 : map snd df' !! k = Some lr'.2)
      by (apply lookup_map_Some; eauto).
    congruence.
  - assert (H1 : map snd df !! k = Some lr.2)
      by (apply lookup_map_Some; eauto).
    rewrite H1 in H. symmetry in H.
    apply lookup_map_Some in H as (x & Hx & _).
    pose proof (eq_trans (eq_sym E') Hx). discriminate.
  - assert (H2 : map snd df' !! k = Some lr'.2)
      by (apply lookup_map_Some; eauto).
    rewrite H2 in H.
    apply lookup_map_Some in H as (x & Hx & _).
    pose proof (eq_trans (eq_sym E) Hx). discriminate.
  - exact I.
Qed.

Lemma row_at_extremum_rows (arg : list float -> nat) (fill_value : float)
    (name : string) (col : Row.t -> float) (df df' : DataFrame) :
  increasing df -> increasing df' -> map snd df = map snd df' ->
  (label ← Pd.idx_extremum arg fill_value name col df; Pd.loc df label)
  = (label ← Pd.idx_extremum arg fill_value name col df'; Pd.loc df' label).
Proof.
  intros Hinc Hinc' Heq. unfold Pd.idx_extremum.
  assert (Hvals : map (fun lr => col lr.2) df = map (fun lr => col lr.2) df').
  { rewrite <- (map_map snd col df), <- (map_map snd col df'). now rewrite Heq. }
  rewrite Hvals.
  destruct (map (fun lr => col lr.2) df') as [|v vs]; [reflexivity|].
  destruct (forallb F64.is_nan (v :: vs)); [reflexivity|].
  set (k := arg _).
  pose proof (lookup_same_rows df df' k Heq) as Hk.
  destruct (df !! k) as [[l r]|] eqn:E, (df' !! k) as [[l' r']|] eqn:E';
    try contradiction; [|reflexivity].
  cbn in Hk. subst r'. cbn.
  now rewrite (loc_increasing _ _ _ _ Hinc E), (loc_increasing _ _ _ _ Hinc' E').
Qed.

Lemma by_size_own_rows (size : string) (rows : list Row.t) :
  map snd (Pd.by_size size (Pd.frame rows))
  = map snd (Pd.frame (List.filter (in_size size) rows)).
Proof.
  unfold Pd.by_size. now rewrite select_rows, !frame_rows.
Qed.

(** X11: the analysis of a size reads the rows of that size only, in their
    order.  The three picks of a size, and the row of the go/no-go analysis,
    are those of the dataset reduced to the rows of that size: rows of other
    sizes, wherever they stand, change neither. *)
Theorem X11_size_analysed_on_own_rows (rows : list Row.t) (size : string) :
  picks (Pd.by_size size (Pd.frame rows))
  = picks (Pd.frame (List.filter (in_size size) rows)) /\
  representative (Pd.frame rows)
  = representative (Pd.frame (List.filter (in_size "full") rows)).
Proof.
  assert (Hrow : forall arg fv name col s,
    (label ← Pd.idx_extremum arg fv name col (Pd.by_size s (Pd.frame rows));
     Pd.loc (Pd.by_size s (Pd.frame rows)) label)
    = (label ← Pd.idx_extremum arg fv name col
                 (Pd.frame (List.filter (in_size s) rows));
       Pd.loc (Pd.frame (List.filter (in_size s) rows)) label)).
  { intros. apply row_at_extremum_rows.
    - apply select_increasing, frame_increasing.
    - apply frame_increasing.
    - apply by_size_own_rows. }
  split.
  - unfold picks, row_at_idxmin, row_at_idxmax, Pd.idxmin, Pd.idxmax.
    now rewrite !Hrow.
  - unfold representative, row_at_idxmax, Pd.idxmax. rewrite Hrow.
    apply row_at_extremum_rows.
    + apply frame_increasing.
    + apply select_increasing, frame_increasing.
    + rewrite by_size_own_rows. f_equal. f_equal.
      clear Hrow. induction rows as [|r rows IH]; [reflexivity|].
      cbn. destruct (in_size "full" r) eqn:E; cbn; rewrite ?E; now rewrite <- IH.
Qed.

(** ** The console summary *)

Lemma summary_prints_picks (df : DataFrame) (sizes : list string) :
  (forall size, size ∈ sizes -> exists p, picks (Pd.by_size size df) = Ok p) ->
  exists ps : list Picks,
    Forall2 (fun size p => picks (Pd.by_size size df) = Ok p) sizes ps /\
    summary_prints df sizes
    = zip_with (fun size p => summary_print size (best_recall p)) sizes ps.
Proof.
  induction sizes as [|s sizes IH]; intros Hall.
  - exists []. split; [constructor|reflexivity].
  - destruct (Hall s) as [p Hp]; [left|].
    destruct IH as (ps & Hps & Hsum); [intros size Hin; apply Hall; now right|].
    exists (p :: ps). split; [now constructor|].
    cbn [summary_prints flat_map zip_with].
    rewrite (picks_best_recall _ _ Hp). cbn. f_equal. exact Hsum.
Qed.

(** X12: when the report is written, the console summary that follows has
    one line per size of the dataset, in the order of the report's sections,
    and the line of a size shows the row of that size's "Best Recall" line
    in the report: the highest-recall pick. *)
Theorem X12_console_summary_shows_best_recall
    (df : DataFrame) (w : World) (content : string) :
  report_content df = Ok content ->
  exists ps : list Picks,
    Forall2 (fun size p => picks (Pd.by_size size df) = Ok p) (unique_sizes df) ps /\
    stdout (generate_report df w).1
    = stdout w
      ++ [ "📄 Report generated: benchmark_analysis_report.md";
           Py.nl +:+ "==================================================";
           "📊 BENCHMARK ANALYSIS SUMMARY";
           "==================================================" ]
      ++ zip_with (fun size p => summary_print size (best_recall p))
                  (unique_sizes df) ps.
Proof.
  intros Hc. rewrite (generate_report_ok _ _ _ Hc). cbn [fst stdout].
  destruct (summary_prints_picks df (unique_sizes df)) as (ps & Hps & Hsum).
  { intros size Hin. unfold report_content, report_lines in Hc.
    destruct (size_sections df (unique_sizes df)) as [secs|] eqn:Es;
      cbn in Hc; [|discriminate].
    eapply size_sections_picks; eauto. }
  exists ps. split; [exact Hps|].
  unfold console_lines. rewrite Hsum. reflexivity.
Qed.

Lemma X12_witness :
  exists ps : list Picks,
    Forall2 (fun size p => picks (Pd.by_size size (Pd.frame sample_rows)) = Ok p)
            (unique_sizes (Pd.frame sample_rows)) ps /\
    stdout (generate_report (Pd.frame sample_rows) (mkWorld [] ∅)).1
    = stdout (mkWorld [] ∅)
      ++ [ "📄 Report generated: benchmark_analysis_report.md";
           Py.nl +:+ "==================================================";
           "📊 BENCHMARK ANALYSIS SUMMARY";
           "==================================================" ]
      ++ zip_with (fun size p => summary_print size (best_recall p))
                  (unique_sizes (Pd.frame sample_rows)) ps.
Proof.
  destruct (report_content (Pd.frame sample_rows)) as [content|e] eqn:E;
    [|vm_compute in E; discriminate].
  exact (X12_console_summary_shows_best_recall
           (Pd.frame sample_rows) (mkWorld [] ∅) content E).
Defined.
